(** * PG-Strom GpuPreAgg: the control block, the global hash slot and the
      atomic combine library of [src/cuda_gpupreagg.h]

    The development follows the header top to bottom: the layout macros of
    [kern_gpupreagg] and [kern_global_hashslot], the host-side reset
    function, and then the [aggcalc_*] functions.  Integers are modelled as
    [Z] with the wrap-around of their C type written out; a [Datum] is an
    unsigned 64-bit word; a [cl_float] (resp. [cl_double]) is represented
    by its IEEE-754 binary32 (resp. binary64) bit pattern, and the
    comparisons and additions on it are those of [SpecFloat] on the decoded
    value. *)

From Stdlib Require Import ZArith Lia List Bool Permutation.
From Stdlib Require Import Floats.SpecFloat.
From Equations Require Import Equations.
Import ListNotations.

Local Open Scope Z_scope.

(** ** Machine integers *)

Module CInt.

(** Conversion to an unsigned type of [w] bits. *)
Definition to_unsigned (w x : Z) : Z := x mod 2 ^ w.

(** Conversion to a signed (two's complement) type of [w] bits. *)
Definition to_signed (w x : Z) : Z :=
  let u := x mod 2 ^ w in
  if u <? 2 ^ (w - 1) then u else u - 2 ^ w.

Definition to_cl_uint  : Z -> Z := to_unsigned 32.
Definition to_cl_int   : Z -> Z := to_signed 32.
Definition to_cl_ulong : Z -> Z := to_unsigned 64.
Definition to_cl_long  : Z -> Z := to_signed 64.

(** <limits.h> on the LP64 targets PG-Strom supports. *)
Definition INT_MAX  : Z := 2147483647.
Definition INT_MIN  : Z := - 2147483648.
Definition LONG_MAX : Z := 9223372036854775807.
Definition LONG_MIN : Z := - 9223372036854775808.
Definition UINT_MAX : Z := 4294967295.

(** [Min] and [Max] of PostgreSQL's c.h:
      Max(x,y) = ((x) > (y) ? (x) : (y)),
      Min(x,y) = ((x) < (y) ? (x) : (y)),
    parameterised by the comparison of the operand type. *)
Definition Min {A} (ltb : A -> A -> bool) (x y : A) : A :=
  if ltb x y then x else y.
Definition Max {A} (gtb : A -> A -> bool) (x y : A) : A :=
  if gtb x y then x else y.

End CInt.
Import CInt.

(** ** IEEE-754 bit patterns *)

Module IEEE.

(** Field extraction of a binary interchange format with [mw] trailing
    significand bits and [ew] exponent bits. *)
Definition sign_of (mw ew bits : Z) : bool := Z.testbit bits (mw + ew).
Definition expo_of (mw ew bits : Z) : Z :=
  Z.land (Z.shiftr bits mw) (Z.ones ew).
Definition mant_of (mw bits : Z) : Z := Z.land bits (Z.ones mw).

(** The value denoted by a bit pattern ([bias] is the exponent bias). *)
Definition decode (mw ew bias bits : Z) : spec_float :=
  let s := sign_of mw ew bits in
  let e := expo_of mw ew bits in
  let m := mant_of mw bits in
  if e =? 0 then
    match m with
    | Zpos p => S754_finite s p (1 - bias - mw)
    | _ => S754_zero s
    end
  else if e =? Z.ones ew then
    match m with
    | Zpos _ => S754_nan
    | _ => S754_infinity s
    end
  else
    match m + 2 ^ mw with
    | Zpos p => S754_finite s p (e - bias - mw)
    | _ => S754_nan
    end.

(** The bit pattern of a value; NaN is encoded as the canonical quiet
    NaN the device arithmetic produces (all exponent and significand
    bits set, sign clear). *)
Definition encode (mw ew bias : Z) (f : spec_float) : Z :=
  let sign (s : bool) := if s then 2 ^ (mw + ew) else 0 in
  match f with
  | S754_zero s => sign s
  | S754_infinity s => sign s + Z.shiftl (Z.ones ew) mw
  | S754_nan => Z.ones (mw + ew)
  | S754_finite s m e =>
      if Zpos m <? 2 ^ mw
      then sign s + Zpos m
      else sign s + Z.shiftl (e + bias + mw) mw + (Zpos m - 2 ^ mw)
  end.

Definition is_nan (f : spec_float) : bool :=
  match f with S754_nan => true | _ => false end.

(** binary32 *)
Definition b32_decode : Z -> spec_float := decode 23 8 127.
Definition b32_encode : spec_float -> Z := encode 23 8 127.
(** binary64 *)
Definition b64_decode : Z -> spec_float := decode 52 11 1023.
Definition b64_encode : spec_float -> Z := encode 52 11 1023.

End IEEE.
Import IEEE.

(** ** Device types and intrinsics *)

Definition cl_char  := Z.
Definition cl_bool  := bool.
Definition cl_uint  := Z.
Definition cl_ulong := Z.
Definition Datum    := Z.        (* unsigned 64-bit word *)
Definition cl_float  := Z.       (* binary32 bit pattern, 0 <= _ < 2^32 *)
Definition cl_double := Z.       (* binary64 bit pattern, 0 <= _ < 2^64 *)

Definition to_Datum : Z -> Datum := to_cl_ulong.

(** Bit reinterpretation intrinsics. *)
Definition __int_as_float (x : Z) : cl_float := to_cl_uint x.
Definition __float_as_int (f : cl_float) : Z := to_cl_int f.
Definition __longlong_as_double (x : Z) : cl_double := to_cl_ulong x.
Definition __double_as_longlong (f : cl_double) : Z := to_cl_long f.

(** <float.h> *)
Definition FLT_MAX : cl_float := 0x7f7fffff.
Definition DBL_MAX : cl_double := 0x7fefffffffffffff.
Definition float_zero : cl_float := 0.            (* the literal 0.0 *)
Definition double_zero : cl_double := 0.

(** Unary minus flips the sign bit. *)
Definition float_neg (f : cl_float) : cl_float := Z.lxor f (2 ^ 31).
Definition double_neg (f : cl_double) : cl_double := Z.lxor f (2 ^ 63).

(** Comparison and addition of the operand types. *)
Definition int_lt (x y : Z) : bool := x <? y.
Definition int_gt (x y : Z) : bool := x >? y.
Definition float_lt (x y : cl_float) : bool :=
  SFltb (b32_decode x) (b32_decode y).
Definition float_gt (x y : cl_float) : bool :=
  SFltb (b32_decode y) (b32_decode x).
Definition float_add (x y : cl_float) : cl_float :=
  b32_encode (SFadd 24 128 (b32_decode x) (b32_decode y)).
Definition double_lt (x y : cl_double) : bool :=
  SFltb (b64_decode x) (b64_decode y).
Definition double_gt (x y : cl_double) : bool :=
  SFltb (b64_decode y) (b64_decode x).
Definition double_add (x y : cl_double) : cl_double :=
  b64_encode (SFadd 53 1024 (b64_decode x) (b64_decode y)).

(** ** The control block [kern_gpupreagg] and its layout macros *)

Module Layout.

(** [kern_errorbuf] is declared in cuda_common.h; only its size matters
    here, so it is kept as its object representation, a sequence of
    [sizeof(kern_errorbuf)] bytes. *)
Definition kern_errorbuf := list Byte.byte.

(** [kern_parambuf] is declared in cuda_common.h; this header reads its
    [length] member only.  The remaining members are kept as raw
    bytes. *)
Record kern_parambuf := {
  length  : cl_uint;           (* total length of the parameter buffer *)
  payload : list Byte.byte
}.

Record kern_gpupreagg := {
  kerror                : kern_errorbuf;
  num_group_keys        : cl_uint;
  read_slot_pos         : cl_uint;
  grid_sz               : cl_uint;
  block_sz              : cl_uint;
  setup_slot_done       : cl_bool;
  final_buffer_modified : cl_bool;
  resume_context        : cl_bool;
  suspend_count         : cl_uint;
  suspend_size          : cl_uint;
  nitems_real           : cl_uint;
  nitems_filtered       : cl_uint;
  num_groups            : cl_uint;
  extra_usage           : cl_uint;
  tv_stat_debug1        : cl_ulong;
  tv_stat_debug2        : cl_ulong;
  tv_stat_debug3        : cl_ulong;
  tv_stat_debug4        : cl_ulong;
  kparams               : kern_parambuf
}.

(** [gpupreaggSuspendContext]: a union of a [size_t] (row format), two
    [cl_uint] (block format) and a [size_t] (arrow/column format). *)
Inductive gpupreaggSuspendContext :=
| ctx_r (src_base : Z)
| ctx_b (part_index line_index : cl_uint)
| ctx_c (src_base : Z).

Definition sizeof_size_t : Z := 8.
Definition sizeof_cl_uint : Z := 4.
Definition sizeof_gpupreaggSuspendContext : Z :=
  Z.max sizeof_size_t (Z.max (sizeof_cl_uint + sizeof_cl_uint) sizeof_size_t).

(** A pointer is an address, or NULL. *)
Definition pointer := option Z.
Definition NULL : pointer := None.

(** Pointer arithmetic [p + i] on a pointer to objects of [size] bytes. *)
Definition ptr_add (size p i : Z) : Z := p + size * i.

Section Macros.
(** [offsetof(kern_gpupreagg, kparams)], which depends on the size of
    [kern_errorbuf]. *)
Variable offsetof_kparams : Z.

(** [kgpreagg] is the address of the control block, [k] its contents. *)
Definition KERN_GPUPREAGG_PARAMBUF (kgpreagg : Z) : Z :=
  kgpreagg + offsetof_kparams.

Definition KERN_GPUPREAGG_PARAMBUF_LENGTH (k : kern_gpupreagg) : Z :=
  length (kparams k).

Definition KERN_GPUPREAGG_LENGTH (k : kern_gpupreagg) : Z :=
  offsetof_kparams + KERN_GPUPREAGG_PARAMBUF_LENGTH k.

Definition KERN_GPUPREAGG_SUSPEND_CONTEXT
           (kgpreagg : Z) (k : kern_gpupreagg) (group_id : Z) : pointer :=
  if suspend_size k >? 0
  then Some (ptr_add sizeof_gpupreaggSuspendContext
               (ptr_add 1 (KERN_GPUPREAGG_PARAMBUF kgpreagg)
                  (KERN_GPUPREAGG_PARAMBUF_LENGTH k))
               group_id)
  else NULL.
End Macros.

(** *** [preagg_hash_item] and [kern_global_hashslot] *)

Record preagg_hash_item := {
  index : cl_uint;             (* index onto kds_slot/kds_final *)
  hash  : cl_uint;             (* hash value of the entry *)
  next  : cl_uint              (* next index, or UINT_MAX if not *)
}.
Definition sizeof_preagg_hash_item : Z := 3 * sizeof_cl_uint.

Definition GPUPREAGG_LOCAL_HASH_NSLOTS : Z := 1153.

Record kern_global_hashslot := {
  hs_length : Z;               (* max length of the buffer (size_t) *)
  lock      : cl_uint;
  usage     : cl_uint;         (* usage of the hash items in the tail *)
  nslots    : cl_uint;
  slots     : list cl_uint
}.

(** [GLOBAL_HASHSLOT_GETITEM(f_hash, index)]: the address of an item.
    [f_hash_p] is the address of the hash slot head, [f_hash] its
    contents.  Item indexes are [cl_uint] (as [usage] and the [next]
    links are), so [(index) + 1] is computed in unsigned 32-bit
    arithmetic before it is scaled by the [size_t] item size. *)
Definition GLOBAL_HASHSLOT_GETITEM
           (f_hash_p : Z) (f_hash : kern_global_hashslot) (index : cl_uint)
  : Z :=
  ptr_add 1 (ptr_add 1 f_hash_p (hs_length f_hash))
    (- (sizeof_preagg_hash_item * to_cl_uint (index + 1))).

(** [memset(s, c, n)] on an object representation. *)
Definition memset (s : list Byte.byte) (c : Byte.byte) (n : nat)
  : list Byte.byte :=
  repeat c (Nat.min n (List.length s)) ++ skipn n s.

Definition sizeof_bytes (s : list Byte.byte) : nat := List.length s.

(** [gpupreagg_reset_kernel_task]: reset the status prior to resume. *)
Definition gpupreagg_reset_kernel_task
           (kgpreagg : kern_gpupreagg) (resume_context' : bool)
  : kern_gpupreagg :=
  let k := kgpreagg in
  {| kerror := memset (kerror k) Byte.x00 (sizeof_bytes (kerror k));
     num_group_keys := num_group_keys k;
     read_slot_pos := 0;
     grid_sz := grid_sz k;
     block_sz := block_sz k;
     setup_slot_done := false;
     final_buffer_modified := false;
     resume_context := resume_context';
     suspend_count := 0;
     suspend_size := suspend_size k;
     nitems_real := nitems_real k;
     nitems_filtered := nitems_filtered k;
     num_groups := num_groups k;
     extra_usage := extra_usage k;
     tv_stat_debug1 := tv_stat_debug1 k;
     tv_stat_debug2 := tv_stat_debug2 k;
     tv_stat_debug3 := tv_stat_debug3 k;
     tv_stat_debug4 := tv_stat_debug4 k;
     kparams := kparams k |}.

End Layout.


(** ** A thin abstraction layer for atomic functions *)

(** *** Views of a [Datum] cell through a pointer cast (little endian) *)

Module Cell.

Definition load32 (d : Datum) : Z := to_cl_uint d.
Definition store32 (d : Datum) (v : Z) : Datum :=
  d - to_cl_uint d + to_cl_uint v.
Definition load64 (d : Datum) : Z := to_cl_ulong d.
Definition store64 (d : Datum) (v : Z) : Datum := to_cl_ulong v.

(** Typed loads through the casts of [p_accum_datum] to a pointer to
    [cl_int], [cl_long], [cl_float], ... *)
Definition load_cl_int (d : Datum) : Z := to_cl_int (load32 d).
Definition load_cl_uint (d : Datum) : Z := load32 d.
Definition load_cl_long (d : Datum) : Z := to_cl_long (load64 d).
Definition load_cl_ulong (d : Datum) : Z := load64 d.
Definition load_cl_float (d : Datum) : cl_float := load32 d.
Definition load_cl_double (d : Datum) : cl_double := load64 d.

End Cell.
Import Cell.

(** *** Device atomics, executed without interference from other threads.
    Each returns the new content of the addressed cell; [atomicCAS] also
    returns the value it read. *)

Module Atomic.

Definition atomicMin (cell val : Z) : Z := Z.min cell val.
Definition atomicMax (cell val : Z) : Z := Z.max cell val.
Definition atomicAdd_int (cell val : Z) : Z := to_cl_int (cell + val).
Definition atomicAdd_ulong (cell val : Z) : Z := to_cl_ulong (cell + val).
Definition atomicAdd_float (cell val : cl_float) : cl_float :=
  float_add cell val.
Definition atomicAdd_double (cell val : cl_double) : cl_double :=
  double_add cell val.

Definition atomicCAS (cell compare val : Z) : Z * Z :=
  (if cell =? compare then val else cell, cell).

(** The retry loop of the floating point min/max merge functions:
<<
    do {
        oldval = curval;
        if (keep(oldval, newval))
            break;
    } while ((curval = atomicCAS(p, oldval, newval)) != oldval);
>>
    [cell] is the content of [*p]; the result is its final content. *)
Equations? cas_retry (keep : Z -> Z -> bool) (newval : Z) (cell curval : Z)
  : Z by wf (if cell =? curval then 0%nat else 1%nat) lt :=
cas_retry keep newval cell curval with keep curval newval := {
  | true := cell;
  | false with Z.eq_dec (snd (atomicCAS cell curval newval)) curval := {
    | left _ := fst (atomicCAS cell curval newval);
    | right _ :=
        cas_retry keep newval (fst (atomicCAS cell curval newval))
                              (snd (atomicCAS cell curval newval)) } }.
Proof.
  unfold atomicCAS in *; simpl in *.
  destruct (cell =? curval) eqn:E.
  - apply Z.eqb_eq in E. contradiction.
  - rewrite Z.eqb_refl. lia.
Qed.

End Atomic.
Import Atomic.

(** *** Accumulators and the outcome of a call *)

Record accum := {
  accum_dclass : cl_char;        (* *p_accum_dclass *)
  accum_datum  : Datum           (* *p_accum_datum *)
}.

Definition set_dclass (a : accum) (c : cl_char) : accum :=
  {| accum_dclass := c; accum_datum := accum_datum a |}.
Definition set_datum (a : accum) (d : Datum) : accum :=
  {| accum_dclass := accum_dclass a; accum_datum := d |}.

(** A call either returns with the accumulator it leaves behind, or stops
    at a failed [assert]. *)
Inductive outcome :=
| Returned (a : accum)
| AssertionFailed.

Definition assert (cond : bool) (a : accum) : outcome :=
  if cond then Returned a else AssertionFailed.

Definition bind (o : outcome) (f : accum -> outcome) : outcome :=
  match o with
  | Returned a => f a
  | AssertionFailed => AssertionFailed
  end.

Inductive aggcalc_kind :=
| min_int | max_int | add_int
| min_long | max_long | add_long
| min_float | max_float | add_float
| min_double | max_double | add_double.

Inductive aggcalc_op := op_normal | op_merge | op_update.

Section AggCalc.

(** The class tags are macros of cuda_common.h; the functions below only
    compare against them. *)
Variables DATUM_CLASS__NORMAL DATUM_CLASS__NULL : cl_char.
Hypothesis DATUM_CLASS__distinct : DATUM_CLASS__NORMAL <> DATUM_CLASS__NULL.

(** *** AGGCALC_INIT_TEMPLATE *)

Definition AGGCALC_INIT_TEMPLATE (INIT_VALUE : Z) (a : accum) : accum :=
  let a := set_dclass a DATUM_CLASS__NULL in
  set_datum a (to_Datum INIT_VALUE).

Definition aggcalc_init_null := AGGCALC_INIT_TEMPLATE 0.
Definition aggcalc_init_min_int := AGGCALC_INIT_TEMPLATE (to_Datum INT_MAX).
Definition aggcalc_init_max_int := AGGCALC_INIT_TEMPLATE (to_Datum INT_MIN).
Definition aggcalc_init_add_int := AGGCALC_INIT_TEMPLATE 0.
Definition aggcalc_init_min_long := AGGCALC_INIT_TEMPLATE (to_Datum LONG_MAX).
Definition aggcalc_init_max_long := AGGCALC_INIT_TEMPLATE (to_Datum LONG_MIN).
Definition aggcalc_init_add_long := AGGCALC_INIT_TEMPLATE 0.
Definition aggcalc_init_min_float :=
  AGGCALC_INIT_TEMPLATE (__float_as_int FLT_MAX).
Definition aggcalc_init_max_float :=
  AGGCALC_INIT_TEMPLATE (__float_as_int (float_neg FLT_MAX)).
Definition aggcalc_init_add_float :=
  AGGCALC_INIT_TEMPLATE (__float_as_int float_zero).
Definition aggcalc_init_min_double :=
  AGGCALC_INIT_TEMPLATE (__double_as_longlong DBL_MAX).
Definition aggcalc_init_max_double :=
  AGGCALC_INIT_TEMPLATE (__double_as_longlong (double_neg DBL_MAX)).
Definition aggcalc_init_add_double :=
  AGGCALC_INIT_TEMPLATE (__double_as_longlong double_zero).

(** *** Normal update (not atomic) *)

Definition aggcalc_normal_min_int
           (a : accum) (newval_dclass : cl_char) (newval_datum : Datum)
  : outcome :=
  if newval_dclass =? DATUM_CLASS__NORMAL then
    let newval_int := to_cl_int (Z.land newval_datum 0xffffffff) in
    let a := set_datum a (store32 (accum_datum a)
                            (Min int_lt (load_cl_int (accum_datum a))
                                 newval_int)) in
    Returned (set_dclass a DATUM_CLASS__NORMAL)
  else assert (newval_dclass =? DATUM_CLASS__NULL) a.

Definition aggcalc_normal_max_int
           (a : accum) (newval_dclass : cl_char) (newval_datum : Datum)
  : outcome :=
  if newval_dclass =? DATUM_CLASS__NORMAL then
    let newval_int := to_cl_int (Z.land newval_datum 0xffffffff) in
    let a := set_datum a (store32 (accum_datum a)
                            (Max int_gt (load_cl_int (accum_datum a))
                                 newval_int)) in
    Returned (set_dclass a DATUM_CLASS__NORMAL)
  else assert (newval_dclass =? DATUM_CLASS__NULL) a.

(** The compound assignment on [cl_int] wraps around, as the device's
    32-bit addition does. *)
Definition aggcalc_normal_add_int
           (a : accum) (newval_dclass : cl_char) (newval_datum : Datum)
  : outcome :=
  if newval_dclass =? DATUM_CLASS__NORMAL then
    let a := set_datum a (store32 (accum_datum a)
                            (to_cl_int
                               (load_cl_int (accum_datum a)
                                + to_cl_int (Z.land newval_datum 0xffffffff))))
    in
    Returned (set_dclass a DATUM_CLASS__NORMAL)
  else assert (newval_dclass =? DATUM_CLASS__NULL) a.

Definition aggcalc_normal_min_long
           (a : accum) (newval_dclass : cl_char) (newval_datum : Datum)
  : outcome :=
  if newval_dclass =? DATUM_CLASS__NORMAL then
    let a := set_datum a (store64 (accum_datum a)
                            (Min int_lt (load_cl_long (accum_datum a))
                                 (to_cl_long newval_datum))) in
    Returned (set_dclass a DATUM_CLASS__NORMAL)
  else assert (newval_dclass =? DATUM_CLASS__NULL) a.

Definition aggcalc_normal_max_long
           (a : accum) (newval_dclass : cl_char) (newval_datum : Datum)
  : outcome :=
  if newval_dclass =? DATUM_CLASS__NORMAL then
    let a := set_datum a (store64 (accum_datum a)
                            (Max int_gt (load_cl_long (accum_datum a))
                                 (to_cl_long newval_datum))) in
    Returned (set_dclass a DATUM_CLASS__NORMAL)
  else assert (newval_dclass =? DATUM_CLASS__NULL) a.

Definition aggcalc_normal_add_long
           (a : accum) (newval_dclass : cl_char) (newval_datum : Datum)
  : outcome :=
  if newval_dclass =? DATUM_CLASS__NORMAL then
    let a := set_datum a (store64 (accum_datum a)
                            (to_cl_long
                               (load_cl_long (accum_datum a)
                                + to_cl_long newval_datum))) in
    Returned (set_dclass a DATUM_CLASS__NORMAL)
  else assert (newval_dclass =? DATUM_CLASS__NULL) a.

Definition aggcalc_normal_min_float
           (a : accum) (newval_dclass : cl_char) (newval_datum : Datum)
  : outcome :=
  if newval_dclass =? DATUM_CLASS__NORMAL then
    let a := set_datum a (store32 (accum_datum a)
                            (Min float_lt (load_cl_float (accum_datum a))
                                 (__int_as_float
                                    (Z.land newval_datum 0xffffffff)))) in
    Returned (set_dclass a DATUM_CLASS__NORMAL)
  else assert (newval_dclass =? DATUM_CLASS__NULL) a.

Definition aggcalc_normal_max_float
           (a : accum) (newval_dclass : cl_char) (newval_datum : Datum)
  : outcome :=
  if newval_dclass =? DATUM_CLASS__NORMAL then
    let a := set_datum a (store32 (accum_datum a)
                            (Max float_gt (load_cl_float (accum_datum a))
                                 (__int_as_float
                                    (Z.land newval_datum 0xffffffff)))) in
    Returned (set_dclass a DATUM_CLASS__NORMAL)
  else assert (newval_dclass =? DATUM_CLASS__NULL) a.

Definition aggcalc_normal_add_float
           (a : accum) (newval_dclass : cl_char) (newval_datum : Datum)
  : outcome :=
  if newval_dclass =? DATUM_CLASS__NORMAL then
    let a := set_datum a (store32 (accum_datum a)
                            (float_add (load_cl_float (accum_datum a))
                               (__int_as_float
                                  (Z.land newval_datum 0xffffffff)))) in
    Returned (set_dclass a DATUM_CLASS__NORMAL)
  else assert (newval_dclass =? DATUM_CLASS__NULL) a.

Definition aggcalc_normal_min_double
           (a : accum) (newval_dclass : cl_char) (newval_datum : Datum)
  : outcome :=
  if newval_dclass =? DATUM_CLASS__NORMAL then
    let a := set_datum a (store64 (accum_datum a)
                            (Min double_lt (load_cl_double (accum_datum a))
                                 (__longlong_as_double
                                    (to_cl_ulong newval_datum)))) in
    Returned (set_dclass a DATUM_CLASS__NORMAL)
  else assert (newval_dclass =? DATUM_CLASS__NULL) a.

Definition aggcalc_normal_max_double
           (a : accum) (newval_dclass : cl_char) (newval_datum : Datum)
  : outcome :=
  if newval_dclass =? DATUM_CLASS__NORMAL then
    let a := set_datum a (store64 (accum_datum a)
                            (Max double_gt (load_cl_double (accum_datum a))
                                 (__longlong_as_double
                                    (to_cl_ulong newval_datum)))) in
    Returned (set_dclass a DATUM_CLASS__NORMAL)
  else assert (newval_dclass =? DATUM_CLASS__NULL) a.

Definition aggcalc_normal_add_double
           (a : accum) (newval_dclass : cl_char) (newval_datum : Datum)
  : outcome :=
  if newval_dclass =? DATUM_CLASS__NORMAL then
    let a := set_datum a (store64 (accum_datum a)
                            (double_add (load_cl_double (accum_datum a))
                               (__longlong_as_double
                                  (to_cl_ulong newval_datum)))) in
    Returned (set_dclass a DATUM_CLASS__NORMAL)
  else assert (newval_dclass =? DATUM_CLASS__NULL) a.

(** *** Atomic merge *)

Definition aggcalc_merge_min_int
           (a : accum) (newval_dclass : cl_char) (newval_datum : Datum)
  : outcome :=
  if newval_dclass =? DATUM_CLASS__NORMAL then
    let newval_int := to_cl_int (Z.land newval_datum 0xffffffff) in
    let a := set_datum a (store32 (accum_datum a)
                            (atomicMin (load_cl_int (accum_datum a))
                                       newval_int)) in
    Returned (set_dclass a DATUM_CLASS__NORMAL)
  else assert (newval_dclass =? DATUM_CLASS__NULL) a.

Definition aggcalc_merge_max_int
           (a : accum) (newval_dclass : cl_char) (newval_datum : Datum)
  : outcome :=
  if newval_dclass =? DATUM_CLASS__NORMAL then
    let newval_int := to_cl_int (Z.land newval_datum 0xffffffff) in
    let a := set_datum a (store32 (accum_datum a)
                            (atomicMax (load_cl_int (accum_datum a))
                                       newval_int)) in
    Returned (set_dclass a DATUM_CLASS__NORMAL)
  else assert (newval_dclass =? DATUM_CLASS__NULL) a.

Definition aggcalc_merge_add_int
           (a : accum) (newval_dclass : cl_char) (newval_datum : Datum)
  : outcome :=
  if newval_dclass =? DATUM_CLASS__NORMAL then
    let newval_int := to_cl_int (Z.land newval_datum 0xffffffff) in
    let a := set_datum a (store32 (accum_datum a)
                            (atomicAdd_int (load_cl_int (accum_datum a))
                                           newval_int)) in
    Returned (set_dclass a DATUM_CLASS__NORMAL)
  else assert (newval_dclass =? DATUM_CLASS__NULL) a.

Definition aggcalc_merge_min_long
           (a : accum) (newval_dclass : cl_char) (newval_datum : Datum)
  : outcome :=
  if newval_dclass =? DATUM_CLASS__NORMAL then
    let a := set_datum a (store64 (accum_datum a)
                            (atomicMin (load_cl_long (accum_datum a))
                                       (to_cl_long newval_datum))) in
    Returned (set_dclass a DATUM_CLASS__NORMAL)
  else assert (newval_dclass =? DATUM_CLASS__NULL) a.

Definition aggcalc_merge_max_long
           (a : accum) (newval_dclass : cl_char) (newval_datum : Datum)
  : outcome :=
  if newval_dclass =? DATUM_CLASS__NORMAL then
    let a := set_datum a (store64 (accum_datum a)
                            (atomicMax (load_cl_long (accum_datum a))
                                       (to_cl_long newval_datum))) in
    Returned (set_dclass a DATUM_CLASS__NORMAL)
  else assert (newval_dclass =? DATUM_CLASS__NULL) a.

Definition aggcalc_merge_add_long
           (a : accum) (newval_dclass : cl_char) (newval_datum : Datum)
  : outcome :=
  if newval_dclass =? DATUM_CLASS__NORMAL then
    let a := set_datum a (store64 (accum_datum a)
                            (atomicAdd_ulong (load_cl_ulong (accum_datum a))
                                             (to_cl_ulong newval_datum))) in
    Returned (set_dclass a DATUM_CLASS__NORMAL)
  else assert (newval_dclass =? DATUM_CLASS__NULL) a.

Definition aggcalc_merge_min_float
           (a : accum) (newval_dclass : cl_char) (newval_datum : Datum)
  : outcome :=
  if newval_dclass =? DATUM_CLASS__NORMAL then
    let curval := load_cl_uint (accum_datum a) in
    let newval := to_cl_uint (Z.land newval_datum 0xffffffff) in
    let cell :=
      cas_retry (fun oldval newval =>
                   float_lt (__int_as_float oldval) (__int_as_float newval))
                newval (load_cl_uint (accum_datum a)) curval in
    let a := set_datum a (store32 (accum_datum a) cell) in
    Returned (set_dclass a DATUM_CLASS__NORMAL)
  else assert (newval_dclass =? DATUM_CLASS__NULL) a.

Definition aggcalc_merge_max_float
           (a : accum) (newval_dclass : cl_char) (newval_datum : Datum)
  : outcome :=
  if newval_dclass =? DATUM_CLASS__NORMAL then
    let curval := load_cl_uint (accum_datum a) in
    let newval := to_cl_uint (Z.land newval_datum 0xffffffff) in
    let cell :=
      cas_retry (fun oldval newval =>
                   float_gt (__int_as_float oldval) (__int_as_float newval))
                newval (load_cl_uint (accum_datum a)) curval in
    let a := set_datum a (store32 (accum_datum a) cell) in
    Returned (set_dclass a DATUM_CLASS__NORMAL)
  else assert (newval_dclass =? DATUM_CLASS__NULL) a.

Definition aggcalc_merge_add_float
           (a : accum) (newval_dclass : cl_char) (newval_datum : Datum)
  : outcome :=
  if newval_dclass =? DATUM_CLASS__NORMAL then
    let a := set_datum a (store32 (accum_datum a)
                            (atomicAdd_float
                               (load_cl_float (accum_datum a))
                               (__int_as_float
                                  (Z.land newval_datum 0xffffffff)))) in
    Returned (set_dclass a DATUM_CLASS__NORMAL)
  else assert (newval_dclass =? DATUM_CLASS__NULL) a.

Definition aggcalc_merge_min_double
           (a : accum) (newval_dclass : cl_char) (newval_datum : Datum)
  : outcome :=
  if newval_dclass =? DATUM_CLASS__NORMAL then
    let curval := load_cl_ulong (accum_datum a) in
    let newval := to_cl_ulong newval_datum in
    let cell :=
      cas_retry (fun oldval newval =>
                   double_lt (__longlong_as_double oldval)
                             (__longlong_as_double newval))
                newval (load_cl_ulong (accum_datum a)) curval in
    let a := set_datum a (store64 (accum_datum a) cell) in
    Returned (set_dclass a DATUM_CLASS__NORMAL)
  else assert (newval_dclass =? DATUM_CLASS__NULL) a.

Definition aggcalc_merge_max_double
           (a : accum) (newval_dclass : cl_char) (newval_datum : Datum)
  : outcome :=
  if newval_dclass =? DATUM_CLASS__NORMAL then
    let curval := load_cl_ulong (accum_datum a) in
    let newval := to_cl_ulong newval_datum in
    let cell :=
      cas_retry (fun oldval newval =>
                   double_gt (__longlong_as_double oldval)
                             (__longlong_as_double newval))
                newval (load_cl_ulong (accum_datum a)) curval in
    let a := set_datum a (store64 (accum_datum a) cell) in
    Returned (set_dclass a DATUM_CLASS__NORMAL)
  else assert (newval_dclass =? DATUM_CLASS__NULL) a.

Definition aggcalc_merge_add_double
           (a : accum) (newval_dclass : cl_char) (newval_datum : Datum)
  : outcome :=
  if newval_dclass =? DATUM_CLASS__NORMAL then
    let a := set_datum a (store64 (accum_datum a)
                            (atomicAdd_double
                               (load_cl_double (accum_datum a))
                               (__longlong_as_double newval_datum))) in
    Returned (set_dclass a DATUM_CLASS__NORMAL)
  else assert (newval_dclass =? DATUM_CLASS__NULL) a.

(** *** Atomic update: macros over the merge functions *)

Definition aggcalc_update_min_int := aggcalc_merge_min_int.
Definition aggcalc_update_max_int := aggcalc_merge_max_int.
Definition aggcalc_update_add_int := aggcalc_merge_add_int.
Definition aggcalc_update_min_long := aggcalc_merge_min_long.
Definition aggcalc_update_max_long := aggcalc_merge_max_long.
Definition aggcalc_update_add_long := aggcalc_merge_add_long.
Definition aggcalc_update_min_float := aggcalc_merge_min_float.
Definition aggcalc_update_max_float := aggcalc_merge_max_float.
Definition aggcalc_update_add_float := aggcalc_merge_add_float.
Definition aggcalc_update_min_double := aggcalc_merge_min_double.
Definition aggcalc_update_max_double := aggcalc_merge_max_double.
Definition aggcalc_update_add_double := aggcalc_merge_add_double.

(** *** Dispatch over the kinds and the operations *)

Definition aggcalc_init (k : aggcalc_kind) : accum -> accum :=
  match k with
  | min_int => aggcalc_init_min_int
  | max_int => aggcalc_init_max_int
  | add_int => aggcalc_init_add_int
  | min_long => aggcalc_init_min_long
  | max_long => aggcalc_init_max_long
  | add_long => aggcalc_init_add_long
  | min_float => aggcalc_init_min_float
  | max_float => aggcalc_init_max_float
  | add_float => aggcalc_init_add_float
  | min_double => aggcalc_init_min_double
  | max_double => aggcalc_init_max_double
  | add_double => aggcalc_init_add_double
  end.

Definition aggcalc_normal (k : aggcalc_kind)
  : accum -> cl_char -> Datum -> outcome :=
  match k with
  | min_int => aggcalc_normal_min_int
  | max_int => aggcalc_normal_max_int
  | add_int => aggcalc_normal_add_int
  | min_long => aggcalc_normal_min_long
  | max_long => aggcalc_normal_max_long
  | add_long => aggcalc_normal_add_long
  | min_float => aggcalc_normal_min_float
  | max_float => aggcalc_normal_max_float
  | add_float => aggcalc_normal_add_float
  | min_double => aggcalc_normal_min_double
  | max_double => aggcalc_normal_max_double
  | add_double => aggcalc_normal_add_double
  end.

Definition aggcalc_merge (k : aggcalc_kind)
  : accum -> cl_char -> Datum -> outcome :=
  match k with
  | min_int => aggcalc_merge_min_int
  | max_int => aggcalc_merge_max_int
  | add_int => aggcalc_merge_add_int
  | min_long => aggcalc_merge_min_long
  | max_long => aggcalc_merge_max_long
  | add_long => aggcalc_merge_add_long
  | min_float => aggcalc_merge_min_float
  | max_float => aggcalc_merge_max_float
  | add_float => aggcalc_merge_add_float
  | min_double => aggcalc_merge_min_double
  | max_double => aggcalc_merge_max_double
  | add_double => aggcalc_merge_add_double
  end.

Definition aggcalc_update (k : aggcalc_kind)
  : accum -> cl_char -> Datum -> outcome :=
  match k with
  | min_int => aggcalc_update_min_int
  | max_int => aggcalc_update_max_int
  | add_int => aggcalc_update_add_int
  | min_long => aggcalc_update_min_long
  | max_long => aggcalc_update_max_long
  | add_long => aggcalc_update_add_long
  | min_float => aggcalc_update_min_float
  | max_float => aggcalc_update_max_float
  | add_float => aggcalc_update_add_float
  | min_double => aggcalc_update_min_double
  | max_double => aggcalc_update_max_double
  | add_double => aggcalc_update_add_double
  end.

Definition aggcalc (op : aggcalc_op) : aggcalc_kind
  -> accum -> cl_char -> Datum -> outcome :=
  match op with
  | op_normal => aggcalc_normal
  | op_merge => aggcalc_merge
  | op_update => aggcalc_update
  end.

(** A contribution: the operation that delivers it, its class tag and its
    raw value. *)
Record contribution := {
  c_op     : aggcalc_op;
  c_dclass : cl_char;
  c_datum  : Datum
}.

(** Feed a sequence of contributions to an accumulator, in order. *)
Fixpoint feed (k : aggcalc_kind) (cs : list contribution) (a : accum)
  : outcome :=
  match cs with
  | [] => Returned a
  | c :: cs' =>
      bind (aggcalc (c_op c) k a (c_dclass c) (c_datum c)) (feed k cs')
  end.

(** The raw value of an accumulator of kind [k]: the 32 or 64 bits the
    kind's functions read and write. *)
Definition kind_bits (k : aggcalc_kind) (d : Datum) : Z :=
  match k with
  | min_int | max_int | add_int
  | min_float | max_float | add_float => load32 d
  | _ => load64 d
  end.

(** *** Reading the raw bits as a value of the kind's type *)

Inductive value :=
| VInt (z : Z)
| VFloat (f : spec_float).

Definition kind_value (k : aggcalc_kind) (d : Datum) : value :=
  match k with
  | min_int | max_int | add_int => VInt (load_cl_int d)
  | min_long | max_long | add_long => VInt (load_cl_long d)
  | min_float | max_float | add_float => VFloat (b32_decode (load_cl_float d))
  | min_double | max_double | add_double =>
      VFloat (b64_decode (load_cl_double d))
  end.

(** The initial values the init functions store, as typed values. *)
Definition init_value (k : aggcalc_kind) : value :=
  match k with
  | min_int => VInt INT_MAX
  | max_int => VInt INT_MIN
  | min_long => VInt LONG_MAX
  | max_long => VInt LONG_MIN
  | min_float => VFloat (SFmax_float 24 128)
  | max_float => VFloat (SFopp (SFmax_float 24 128))
  | min_double => VFloat (SFmax_float 53 1024)
  | max_double => VFloat (SFopp (SFmax_float 53 1024))
  | add_int | add_long => VInt 0
  | add_float | add_double => VFloat (S754_zero false)
  end.

(** The identity elements in the wording of the design document: the
    greatest element for min, the least for max, zero for sum; on the
    floating point types the greatest and least elements are the
    infinities. *)
Definition ideal_identity (k : aggcalc_kind) : value :=
  match k with
  | min_int => VInt INT_MAX
  | max_int => VInt INT_MIN
  | min_long => VInt LONG_MAX
  | max_long => VInt LONG_MIN
  | min_float | min_double => VFloat (S754_infinity false)
  | max_float | max_double => VFloat (S754_infinity true)
  | add_int | add_long => VInt 0
  | add_float | add_double => VFloat (S754_zero false)
  end.

Definition is_pos_inf (f : spec_float) : bool :=
  match f with S754_infinity false => true | _ => false end.
Definition is_neg_inf (f : spec_float) : bool :=
  match f with S754_infinity true => true | _ => false end.
Definition is_neg_zero (f : spec_float) : bool :=
  match f with S754_zero true => true | _ => false end.

(** The contributions that an accumulator fresh from init gives back
    unchanged: every integer; for floating point min every value but
    +infinity, for max every value but -infinity, for sum every number
    (not NaN) but the negative zero. *)
Definition restored_by_init (k : aggcalc_kind) (d : Datum) : bool :=
  match k, kind_value k d with
  | (min_float | min_double), VFloat f => negb (is_pos_inf f)
  | (max_float | max_double), VFloat f => negb (is_neg_inf f)
  | (add_float | add_double), VFloat f => negb (is_nan f) && negb (is_neg_zero f)
  | _, _ => true
  end.

(** The integer a contribution to a 32-bit (64-bit) sum stands for. *)
Definition contributed_int (d : Datum) : Z :=
  to_cl_int (Z.land d 0xffffffff).
Definition contributed_long (d : Datum) : Z := to_cl_long d.

Definition sum_Z (l : list Z) : Z := fold_right Z.add 0 l.

(** Item indexes of the global hash table: [UINT_MAX] marks the end of a
    chain and is not an index. *)
Definition is_item_index (i : Z) : Prop := 0 <= i < UINT_MAX.

(** The bytes [p, p + size) occupied by an object. *)
Definition disjoint_regions (size p q : Z) : Prop :=
  p + size <= q \/ q + size <= p.

(** The contributions the combine functions accept, and those that
    carry a value. *)
Definition accepted (c : contribution) : Prop :=
  c_dclass c = DATUM_CLASS__NORMAL \/ c_dclass c = DATUM_CLASS__NULL.

Definition is_NORMAL (c : contribution) : bool :=
  c_dclass c =? DATUM_CLASS__NORMAL.

Definition all_NORMAL (cs : list contribution) : Prop :=
  Forall (fun c => c_dclass c = DATUM_CLASS__NORMAL) cs.

(** The floating point value an accumulator of a floating point kind
    holds, and the direction of the floating point min/max kinds. *)
Definition kind_float (k : aggcalc_kind) (d : Datum) : spec_float :=
  match kind_value k d with
  | VFloat f => f
  | VInt _ => S754_nan
  end.

Inductive direction := towards_min | towards_max.

Definition float_minmax (k : aggcalc_kind) : option direction :=
  match k with
  | min_float | min_double => Some towards_min
  | max_float | max_double => Some towards_max
  | _ => None
  end.

(** *** AGGCALC_SHUFFLE_TEMPLATE

    A warp is the list of the accumulators its 32 lanes hold when the
    shuffle is issued.  [__shfl_sync(mask, var, srcLane)] returns the
    [var] of lane [srcLane] modulo the warp size; [own] stands in when the
    list has no such lane. *)

Definition warpSize : Z := 32.

Definition __shfl_sync {A : Type} (warp : list A) (own : A) (srcLane : Z)
  : A :=
  nth (Z.to_nat (srcLane mod warpSize)) warp own.

Definition AGGCALC_SHUFFLE_TEMPLATE
           (aggcalc_normal_name : accum -> cl_char -> Datum -> outcome)
           (__activemask : Z) (warp : list accum)
           (a : accum) (lane_id : Z) : outcome :=
  bind (assert (__activemask =? 0xffffffff) a)
       (fun a =>
          let newval_dclass :=
            __shfl_sync (map accum_dclass warp) (accum_dclass a) lane_id in
          let newval_datum :=
            __shfl_sync (map accum_datum warp) (accum_datum a) lane_id in
          aggcalc_normal_name a newval_dclass newval_datum).

Definition aggcalc_shuffle_min_int :=
  AGGCALC_SHUFFLE_TEMPLATE aggcalc_normal_min_int.
Definition aggcalc_shuffle_max_int :=
  AGGCALC_SHUFFLE_TEMPLATE aggcalc_normal_max_int.
Definition aggcalc_shuffle_add_int :=
  AGGCALC_SHUFFLE_TEMPLATE aggcalc_normal_add_int.
Definition aggcalc_shuffle_min_long :=
  AGGCALC_SHUFFLE_TEMPLATE aggcalc_normal_min_long.
Definition aggcalc_shuffle_max_long :=
  AGGCALC_SHUFFLE_TEMPLATE aggcalc_normal_max_long.
Definition aggcalc_shuffle_add_long :=
  AGGCALC_SHUFFLE_TEMPLATE aggcalc_normal_add_long.
Definition aggcalc_shuffle_min_float :=
  AGGCALC_SHUFFLE_TEMPLATE aggcalc_normal_min_float.
Definition aggcalc_shuffle_max_float :=
  AGGCALC_SHUFFLE_TEMPLATE aggcalc_normal_max_float.
Definition aggcalc_shuffle_add_float :=
  AGGCALC_SHUFFLE_TEMPLATE aggcalc_normal_add_float.
Definition aggcalc_shuffle_min_double :=
  AGGCALC_SHUFFLE_TEMPLATE aggcalc_normal_min_double.
Definition aggcalc_shuffle_max_double :=
  AGGCALC_SHUFFLE_TEMPLATE aggcalc_normal_max_double.
Definition aggcalc_shuffle_add_double :=
  AGGCALC_SHUFFLE_TEMPLATE aggcalc_normal_add_double.

Definition aggcalc_shuffle (k : aggcalc_kind)
  : Z -> list accum -> accum -> Z -> outcome :=
  match k with
  | min_int => aggcalc_shuffle_min_int
  | max_int => aggcalc_shuffle_max_int
  | add_int => aggcalc_shuffle_add_int
  | min_long => aggcalc_shuffle_min_long
  | max_long => aggcalc_shuffle_max_long
  | add_long => aggcalc_shuffle_add_long
  | min_float => aggcalc_shuffle_min_float
  | max_float => aggcalc_shuffle_max_float
  | add_float => aggcalc_shuffle_add_float
  | min_double => aggcalc_shuffle_min_double
  | max_double => aggcalc_shuffle_max_double
  | add_double => aggcalc_shuffle_add_double
  end.

(** *** Vocabulary for the properties of the integer kinds *)

Definition integer_kind (k : aggcalc_kind) : bool :=
  match k with
  | min_int | max_int | add_int | min_long | max_long | add_long => true
  | _ => false
  end.

Definition narrow_kind (k : aggcalc_kind) : bool :=
  match k with
  | min_int | max_int | add_int | min_float | max_float | add_float => true
  | _ => false
  end.

Definition minmax_kind (k : aggcalc_kind) : bool :=
  match k with
  | add_int | add_long | add_float | add_double => false
  | _ => true
  end.

(** The integer a NORMAL contribution leaves in an accumulator of an
    integer kind that held [x], before it is stored back. *)
Definition integer_combine (k : aggcalc_kind) (x v : Z) : Z :=
  match k with
  | min_int | min_long => Z.min x v
  | max_int | max_long => Z.max x v
  | _ => x + v
  end.

Definition contributed_integer (k : aggcalc_kind) (d : Datum) : Z :=
  if narrow_kind k then contributed_int d else contributed_long d.

Definition stored_integer (k : aggcalc_kind) (d : Datum) : Z :=
  if narrow_kind k then load_cl_int d else load_cl_long d.

Definition store_integer (k : aggcalc_kind) (x : Datum) (v : Z) : Datum :=
  if narrow_kind k then store32 x v else store64 x v.

Definition wrap_integer (k : aggcalc_kind) (v : Z) : Z :=
  if narrow_kind k then to_cl_int v else to_cl_long v.

(** The cell of an integer kind after a NORMAL contribution [d]. *)
Definition integer_update (k : aggcalc_kind) (x d : Datum) : Datum :=
  store_integer k x
    (integer_combine k (stored_integer k x) (contributed_integer k d)).

Definition integer_minmax (k : aggcalc_kind) : option direction :=
  match k with
  | min_int | min_long => Some towards_min
  | max_int | max_long => Some towards_max
  | _ => None
  end.

Definition is_Datum (d : Z) : Prop := 0 <= d < 2 ^ 64.

(** Sample inputs, with the class tags 0 for NORMAL and 1 for NULL. *)
Definition sample_accum : accum := {| accum_dclass := 1; accum_datum := 41 |}.

Definition sample_block : Layout.kern_gpupreagg :=
  {| Layout.kerror := [Byte.x07; Byte.x01];
     Layout.num_group_keys := 2;
     Layout.read_slot_pos := 17;
     Layout.grid_sz := 4;
     Layout.block_sz := 128;
     Layout.setup_slot_done := true;
     Layout.final_buffer_modified := true;
     Layout.resume_context := false;
     Layout.suspend_count := 3;
     Layout.suspend_size := 64;
     Layout.nitems_real := 100;
     Layout.nitems_filtered := 5;
     Layout.num_groups := 9;
     Layout.extra_usage := 0;
     Layout.tv_stat_debug1 := 0;
     Layout.tv_stat_debug2 := 0;
     Layout.tv_stat_debug3 := 0;
     Layout.tv_stat_debug4 := 0;
     Layout.kparams := {| Layout.length := 24; Layout.payload := [] |} |}.

Definition sample_hashslot : Layout.kern_global_hashslot :=
  {| Layout.hs_length := 4096;
     Layout.lock := 0;
     Layout.usage := 2;
     Layout.nslots := 8;
     Layout.slots := [] |}.

Definition sample_contributions : list contribution :=
  [ {| c_op := op_normal; c_dclass := 1; c_datum := 0 |};
    {| c_op := op_merge;  c_dclass := 0; c_datum := 5 |};
    {| c_op := op_update; c_dclass := 1; c_datum := 0 |} ].

Definition overflowing_contributions : list contribution :=
  [ {| c_op := op_normal; c_dclass := 0; c_datum := 0x7fffffffffffffff |};
    {| c_op := op_merge;  c_dclass := 0; c_datum := 1 |} ].

Definition shuffled_contributions : list contribution :=
  [ {| c_op := op_update; c_dclass := 1; c_datum := 0 |};
    {| c_op := op_normal; c_dclass := 1; c_datum := 0 |};
    {| c_op := op_merge;  c_dclass := 0; c_datum := 5 |} ].

Definition three_contributions : list contribution :=
  [ {| c_op := op_normal; c_dclass := 0; c_datum := 7 |};
    {| c_op := op_merge;  c_dclass := 0; c_datum := 0xfffffffd |};
    {| c_op := op_update; c_dclass := 0; c_datum := 12 |} ].

Definition sample_warp : list accum :=
  repeat {| accum_dclass := 0; accum_datum := 9 |} 31
  ++ [ {| accum_dclass := 1; accum_datum := 0 |} ].

(** * Properties *)

(** ** Machine integer facts *)

Lemma pow2_32 : 2 ^ 32 = 4294967296. Proof. reflexivity. Qed.
Lemma pow2_31 : 2 ^ (32 - 1) = 2147483648. Proof. reflexivity. Qed.
Lemma pow2_64 : 2 ^ 64 = 18446744073709551616. Proof. reflexivity. Qed.
Lemma pow2_63 : 2 ^ (64 - 1) = 9223372036854775808. Proof. reflexivity. Qed.

Ltac unfold_cint :=
  unfold to_cl_int, to_cl_uint, to_cl_long, to_cl_ulong, to_Datum,
    to_signed, to_unsigned in *;
  rewrite ?pow2_32, ?pow2_31, ?pow2_64, ?pow2_63 in *.

Lemma land_mask32 d : Z.land d 0xffffffff = to_cl_uint d.
Proof. exact (Z.land_ones d 32 ltac:(lia)). Qed.

Lemma to_cl_uint_range x : 0 <= to_cl_uint x < 2 ^ 32.
Proof. apply Z.mod_pos_bound. reflexivity. Qed.

Lemma to_cl_ulong_range x : 0 <= to_cl_ulong x < 2 ^ 64.
Proof. apply Z.mod_pos_bound. reflexivity. Qed.

Lemma to_cl_int_range x : INT_MIN <= to_cl_int x <= INT_MAX.
Proof.
  unfold INT_MIN, INT_MAX. unfold_cint.
  pose proof (Z.mod_pos_bound x 4294967296 ltac:(lia)).
  destruct (_ <? _) eqn:E; [apply Z.ltb_lt in E | apply Z.ltb_ge in E]; lia.
Qed.

Lemma to_cl_long_range x : LONG_MIN <= to_cl_long x <= LONG_MAX.
Proof.
  unfold LONG_MIN, LONG_MAX. unfold_cint.
  pose proof (Z.mod_pos_bound x 18446744073709551616 ltac:(lia)).
  destruct (_ <? _) eqn:E; [apply Z.ltb_lt in E | apply Z.ltb_ge in E]; lia.
Qed.

(** Converting to the signed type keeps the bits. *)
Lemma to_cl_uint_of_int x : to_cl_uint (to_cl_int x) = to_cl_uint x.
Proof.
  unfold_cint.
  destruct (_ <? _).
  - apply Z.mod_mod. lia.
  - replace (x mod 4294967296 - 4294967296)
      with (x mod 4294967296 + (-1) * 4294967296) by lia.
    rewrite Z.mod_add by lia. apply Z.mod_mod. lia.
Qed.

Lemma to_cl_ulong_of_long x : to_cl_ulong (to_cl_long x) = to_cl_ulong x.
Proof.
  unfold_cint.
  destruct (_ <? _).
  - apply Z.mod_mod. lia.
  - replace (x mod 18446744073709551616 - 18446744073709551616)
      with (x mod 18446744073709551616 + (-1) * 18446744073709551616) by lia.
    rewrite Z.mod_add by lia. apply Z.mod_mod. lia.
Qed.

Lemma to_cl_uint_idem x : to_cl_uint (to_cl_uint x) = to_cl_uint x.
Proof. unfold_cint. apply Z.mod_mod. lia. Qed.

Lemma to_cl_ulong_idem x : to_cl_ulong (to_cl_ulong x) = to_cl_ulong x.
Proof. unfold_cint. apply Z.mod_mod. lia. Qed.

Lemma to_cl_int_of_uint x : to_cl_int (to_cl_uint x) = to_cl_int x.
Proof.
  unfold to_cl_int, to_signed. fold (to_unsigned 32 (to_cl_uint x)).
  fold (to_cl_uint (to_cl_uint x)). rewrite to_cl_uint_idem. reflexivity.
Qed.

Lemma to_cl_long_of_ulong x : to_cl_long (to_cl_ulong x) = to_cl_long x.
Proof.
  unfold to_cl_long, to_signed. fold (to_unsigned 64 (to_cl_ulong x)).
  fold (to_cl_ulong (to_cl_ulong x)). rewrite to_cl_ulong_idem. reflexivity.
Qed.

Lemma to_cl_uint_add x y :
  to_cl_uint (to_cl_int x + to_cl_int y) = to_cl_uint (x + y).
Proof.
  unfold to_cl_uint at 1. unfold to_unsigned.
  rewrite Z.add_mod by (rewrite pow2_32; lia).
  fold (to_unsigned 32 (to_cl_int x)). fold (to_unsigned 32 (to_cl_int y)).
  fold (to_cl_uint (to_cl_int x)). fold (to_cl_uint (to_cl_int y)).
  rewrite !to_cl_uint_of_int. unfold to_cl_uint, to_unsigned.
  symmetry. apply Z.add_mod. rewrite pow2_32; lia.
Qed.

Lemma to_cl_ulong_add x y :
  to_cl_ulong (to_cl_long x + to_cl_long y) = to_cl_ulong (x + y).
Proof.
  unfold to_cl_ulong at 1. unfold to_unsigned.
  rewrite Z.add_mod by (rewrite pow2_64; lia).
  fold (to_unsigned 64 (to_cl_long x)). fold (to_unsigned 64 (to_cl_long y)).
  fold (to_cl_ulong (to_cl_long x)). fold (to_cl_ulong (to_cl_long y)).
  rewrite !to_cl_ulong_of_long. unfold to_cl_ulong, to_unsigned.
  symmetry. apply Z.add_mod. rewrite pow2_64; lia.
Qed.

(** ** Cell views *)

Lemma load32_store32 d v : load32 (store32 d v) = to_cl_uint v.
Proof.
  unfold load32, store32. unfold_cint.
  pose proof (Z.div_mod d 4294967296 ltac:(lia)) as H.
  replace (d - d mod 4294967296 + v mod 4294967296)
    with (v mod 4294967296 + (d / 4294967296) * 4294967296) by lia.
  rewrite Z.mod_add by lia. apply Z.mod_mod. lia.
Qed.

Lemma load64_store64 d v : load64 (store64 d v) = to_cl_ulong v.
Proof. unfold load64, store64. apply to_cl_ulong_idem. Qed.

(** A 32-bit store leaves the upper half of the cell alone. *)
Lemma store32_upper d v : store32 d v / 2 ^ 32 = d / 2 ^ 32.
Proof.
  unfold store32. unfold_cint.
  pose proof (Z.div_mod d 4294967296 ltac:(lia)) as H.
  pose proof (Z.mod_pos_bound v 4294967296 ltac:(lia)).
  replace (d - d mod 4294967296 + v mod 4294967296)
    with (v mod 4294967296 + (d / 4294967296) * 4294967296) by lia.
  rewrite Z.div_add by lia. rewrite Z.div_small by lia. lia.
Qed.

(** ** The compare-and-swap retry loop *)

(** Entered with [curval] just read from the cell, and nobody else
    writing, the loop runs its body once: it either breaks, or its
    compare-and-swap succeeds. *)
Lemma cas_retry_sequential keep newval cell :
  cas_retry keep newval cell cell = if keep cell newval then cell else newval.
Proof.
  rewrite cas_retry_equation_1.
  destruct (keep cell newval) eqn:K; simpl; [reflexivity|].
  destruct (Z.eq_dec cell cell) as [e|n]; [|contradiction].
  simpl. rewrite Z.eqb_refl. reflexivity.
Qed.

(** ** Floating point comparison *)

Lemma SFcompare_antisym x y c :
  SFcompare x y = Some c -> SFcompare y x = Some (CompOpp c).
Proof.
  destruct x as [sx|sx| |sx mx ex], y as [sy|sy| |sy my ey]; simpl;
    try discriminate;
    try (destruct sx); try (destruct sy);
    intros H; inversion H; subst; try reflexivity.
  all: rewrite (Z.compare_antisym ex ey);
    destruct (ex ?= ey); simpl; try reflexivity;
    replace (Pos.compare_cont Eq my mx)
      with (CompOpp (Pos.compare_cont Eq mx my))
      by (rewrite Pos.compare_cont_antisym; reflexivity);
    destruct (Pos.compare_cont Eq mx my); reflexivity.
Qed.

Lemma SFcompare_total x y :
  is_nan x = false -> is_nan y = false -> exists c, SFcompare x y = Some c.
Proof.
  destruct x, y; simpl; try discriminate; intros _ _; eexists; reflexivity.
Qed.

Lemma SFcompare_refl x : is_nan x = false -> SFcompare x x = Some Eq.
Proof.
  destruct x as [s|s| |s m e]; simpl; try discriminate; intros _;
    destruct s; try reflexivity;
    rewrite Z.compare_refl, Pos.compare_cont_refl; reflexivity.
Qed.

Lemma SFleb_refl x : is_nan x = false -> SFleb x x = true.
Proof. intros H. unfold SFleb. rewrite SFcompare_refl by exact H. reflexivity. Qed.

Lemma SFltb_leb x y : SFltb x y = true -> SFleb x y = true.
Proof. unfold SFltb, SFleb. destruct (SFcompare x y) as [[]|]; auto. Qed.

Lemma SFltb_false_leb x y :
  is_nan x = false -> is_nan y = false -> SFltb x y = false -> SFleb y x = true.
Proof.
  intros Hx Hy. destruct (SFcompare_total x y Hx Hy) as [c Hc].
  unfold SFltb, SFleb. rewrite (SFcompare_antisym _ _ _ Hc), Hc.
  destruct c; simpl; auto.
Qed.

(** ** Decoding bit patterns *)

Lemma expo_of_range mw ew v : 0 <= ew -> 0 <= expo_of mw ew v < 2 ^ ew.
Proof.
  intros. unfold expo_of. rewrite Z.land_ones by assumption.
  apply Z.mod_pos_bound. apply Z.pow_pos_nonneg; lia.
Qed.

Lemma mant_of_range mw v : 0 <= mw -> 0 <= mant_of mw v < 2 ^ mw.
Proof.
  intros. unfold mant_of. rewrite Z.land_ones by assumption.
  apply Z.mod_pos_bound. apply Z.pow_pos_nonneg; lia.
Qed.

(** A decoded finite value lies within the format: its exponent is at
    most [emax - prec] and its significand has at most [prec] bits. *)
Lemma decode_finite_bounds mw ew bias v s m e :
  0 <= mw -> 1 < ew ->
  decode mw ew bias v = S754_finite s m e ->
  e <= 2 ^ ew - 2 - bias - mw /\ Zpos m < 2 ^ (mw + 1).
Proof.
  intros Hmw Hew. unfold decode.
  pose proof (expo_of_range mw ew v ltac:(lia)) as He.
  pose proof (mant_of_range mw v Hmw) as Hm.
  assert (Hp : 2 ^ (mw + 1) = 2 * 2 ^ mw) by (rewrite Z.pow_add_r by lia; lia).
  assert (H2 : 4 <= 2 ^ ew)
    by (change 4 with (2 ^ 2); apply Z.pow_le_mono_r; lia).
  rewrite Z.ones_equiv.
  destruct (expo_of mw ew v =? 0) eqn:E0.
  - apply Z.eqb_eq in E0.
    destruct (mant_of mw v) eqn:M; intros H; try discriminate H.
    assert (e = 1 - bias - mw) by congruence.
    assert (m = p) by congruence. subst m. lia.
  - destruct (expo_of mw ew v =? Z.pred (2 ^ ew)) eqn:E1.
    + destruct (mant_of mw v); discriminate.
    + apply Z.eqb_neq in E0, E1.
      destruct (mant_of mw v + 2 ^ mw) eqn:M; intros H; try discriminate H.
      assert (e = expo_of mw ew v - bias - mw) by congruence.
      assert (m = p) by congruence. subst m. lia.
Qed.

Lemma b32_decode_finite_bounds v s m e :
  b32_decode v = S754_finite s m e -> e <= 104 /\ Zpos m < 2 ^ 24.
Proof.
  intros H. apply decode_finite_bounds in H; lia.
Qed.

Lemma b64_decode_finite_bounds v s m e :
  b64_decode v = S754_finite s m e -> e <= 971 /\ Zpos m < 2 ^ 53.
Proof.
  intros H. apply decode_finite_bounds in H; lia.
Qed.

(** Nothing but +infinity is above the largest finite value, and nothing
    but -infinity is below its negation. *)
Lemma SFltb_max_float prec emax f m :
  Zpos m = 2 ^ prec - 1 ->
  (forall s m' e, f = S754_finite s m' e ->
                  e <= emax - prec /\ Zpos m' < 2 ^ prec) ->
  is_pos_inf f = false ->
  SFltb (S754_finite false m (emax - prec)) f = false.
Proof.
  intros Hm Hb Hinf. unfold SFltb.
  destruct f as [s|s| |s m' e]; simpl; try reflexivity.
  - destruct s; [reflexivity | discriminate].
  - destruct s; [reflexivity|].
    destruct (Hb _ _ _ eq_refl) as [He Hm'].
    destruct (emax - prec ?= e) eqn:C; try reflexivity.
    + change (Pos.compare_cont Eq m m') with (m ?= m')%positive.
      destruct (Pos.compare_spec m m') as [E|L|G]; try reflexivity.
      exfalso. clear - Hm Hm' L. lia.
    + rewrite Z.compare_lt_iff in C. exfalso. clear - He C. lia.
Qed.

Lemma SFltb_min_float prec emax f m :
  Zpos m = 2 ^ prec - 1 ->
  (forall s m' e, f = S754_finite s m' e ->
                  e <= emax - prec /\ Zpos m' < 2 ^ prec) ->
  is_neg_inf f = false ->
  SFltb f (S754_finite true m (emax - prec)) = false.
Proof.
  intros Hm Hb Hinf. unfold SFltb.
  destruct f as [s|s| |s m' e]; simpl; try reflexivity.
  - destruct s; [discriminate | reflexivity].
  - destruct s; [|reflexivity].
    destruct (Hb _ _ _ eq_refl) as [He Hm'].
    destruct (e ?= emax - prec) eqn:C; try reflexivity.
    + change (Pos.compare_cont Eq m' m) with (m' ?= m)%positive.
      destruct (Pos.compare_spec m' m) as [E|L|G]; try reflexivity.
      exfalso. clear - Hm Hm' G. lia.
    + rewrite Z.compare_gt_iff in C. exfalso. clear - He C. lia.
Qed.

(** A bit pattern is the sum of its three fields. *)
Lemma decode_fields mw ew v :
  0 <= mw -> 0 <= ew -> 0 <= v < 2 ^ (mw + ew + 1) ->
  v = (if sign_of mw ew v then 2 ^ (mw + ew) else 0)
      + expo_of mw ew v * 2 ^ mw + mant_of mw v.
Proof.
  intros Hmw Hew Hv.
  unfold sign_of, expo_of, mant_of.
  rewrite Z.testbit_eqb by lia.
  rewrite !Z.land_ones, Z.shiftr_div_pow2 by lia.
  rewrite Z.pow_add_r in Hv by lia. rewrite Z.pow_add_r in * by lia.
  change (2 ^ 1) with 2 in Hv.
  assert (HA : 0 < 2 ^ mw) by (apply Z.pow_pos_nonneg; lia).
  assert (HB : 0 < 2 ^ ew) by (apply Z.pow_pos_nonneg; lia).
  remember (2 ^ mw) as A. remember (2 ^ ew) as B.
  rewrite <- Z.div_div by lia.
  pose proof (Z.div_mod v A ltac:(lia)) as H1.
  pose proof (Z.mod_pos_bound v A HA) as H2.
  remember (v / A) as q. remember (v mod A) as r.
  pose proof (Z.div_mod q B ltac:(lia)) as H3.
  pose proof (Z.mod_pos_bound q B HB) as H4.
  remember (q / B) as t. remember (q mod B) as e.
  assert (Ht : t = 0 \/ t = 1) by nia.
  destruct Ht as [-> | ->]; simpl; nia.
Qed.

(** Encoding the decoded value of a bit pattern that is not a NaN gives
    the bit pattern back. *)
Lemma encode_decode mw ew bias v :
  0 <= mw -> 0 <= ew -> 0 <= v < 2 ^ (mw + ew + 1) ->
  is_nan (decode mw ew bias v) = false ->
  encode mw ew bias (decode mw ew bias v) = v.
Proof.
  intros Hmw Hew Hv.
  pose proof (decode_fields mw ew v Hmw Hew Hv) as F.
  pose proof (mant_of_range mw v Hmw) as Hm.
  unfold decode.
  remember (sign_of mw ew v) as s. remember (expo_of mw ew v) as e.
  remember (mant_of mw v) as m.
  destruct (e =? 0) eqn:E0.
  - apply Z.eqb_eq in E0.
    destruct m as [|p|p]; cbv beta iota zeta delta [encode is_nan]; intros _.
    + lia.
    + destruct (Z.pos p <? 2 ^ mw) eqn:L; [lia|].
      apply Z.ltb_ge in L. lia.
    + lia.
  - destruct (e =? Z.ones ew) eqn:E1.
    + apply Z.eqb_eq in E1.
      destruct m as [|p|p]; cbv beta iota zeta delta [encode is_nan];
        try discriminate; intros _;
        rewrite Z.shiftl_mul_pow2 by lia; lia.
    + destruct (m + 2 ^ mw) as [|p|p] eqn:M;
        cbv beta iota zeta delta [encode is_nan]; try discriminate.
      intros _.
      destruct (Z.pos p <? 2 ^ mw) eqn:L.
      * apply Z.ltb_lt in L. lia.
      * rewrite Z.shiftl_mul_pow2 by lia.
        replace (e - bias - mw + bias + mw) with e by lia. lia.
Qed.

Lemma b32_encode_decode v :
  0 <= v < 2 ^ 32 -> is_nan (b32_decode v) = false ->
  b32_encode (b32_decode v) = v.
Proof. intros. apply encode_decode; try lia. assumption. Qed.

Lemma b64_encode_decode v :
  0 <= v < 2 ^ 64 -> is_nan (b64_decode v) = false ->
  b64_encode (b64_decode v) = v.
Proof. intros. apply encode_decode; try lia. assumption. Qed.

(** ** The atomic combine library *)

Create HintDb aggcalc discriminated.

#[local] Hint Unfold
  aggcalc aggcalc_normal aggcalc_merge aggcalc_update
  aggcalc_normal_min_int aggcalc_normal_max_int aggcalc_normal_add_int
  aggcalc_normal_min_long aggcalc_normal_max_long aggcalc_normal_add_long
  aggcalc_normal_min_float aggcalc_normal_max_float aggcalc_normal_add_float
  aggcalc_normal_min_double aggcalc_normal_max_double
  aggcalc_normal_add_double
  aggcalc_merge_min_int aggcalc_merge_max_int aggcalc_merge_add_int
  aggcalc_merge_min_long aggcalc_merge_max_long aggcalc_merge_add_long
  aggcalc_merge_min_float aggcalc_merge_max_float aggcalc_merge_add_float
  aggcalc_merge_min_double aggcalc_merge_max_double aggcalc_merge_add_double
  aggcalc_update_min_int aggcalc_update_max_int aggcalc_update_add_int
  aggcalc_update_min_long aggcalc_update_max_long aggcalc_update_add_long
  aggcalc_update_min_float aggcalc_update_max_float aggcalc_update_add_float
  aggcalc_update_min_double aggcalc_update_max_double
  aggcalc_update_add_double : aggcalc.

#[local] Hint Unfold
  aggcalc_init AGGCALC_INIT_TEMPLATE
  aggcalc_init_min_int aggcalc_init_max_int aggcalc_init_add_int
  aggcalc_init_min_long aggcalc_init_max_long aggcalc_init_add_long
  aggcalc_init_min_float aggcalc_init_max_float aggcalc_init_add_float
  aggcalc_init_min_double aggcalc_init_max_double aggcalc_init_add_double
  : aggcalc.

(** Every combine function has the same frame: on a NORMAL contribution
    it rewrites the raw value and sets the class to NORMAL; otherwise it
    only asserts that the contribution is NULL. *)
Lemma aggcalc_frame op k a c d :
  exists d',
    aggcalc op k a c d =
    if c =? DATUM_CLASS__NORMAL
    then Returned {| accum_dclass := DATUM_CLASS__NORMAL; accum_datum := d' |}
    else assert (c =? DATUM_CLASS__NULL) a.
Proof.
  destruct op, k; autounfold with aggcalc; eexists;
    destruct (c =? DATUM_CLASS__NORMAL); reflexivity.
Qed.

Lemma NULL_is_not_NORMAL : (DATUM_CLASS__NULL =? DATUM_CLASS__NORMAL) = false.
Proof. apply Z.eqb_neq. intros E. apply DATUM_CLASS__distinct. now symmetry. Qed.

Lemma aggcalc_NULL op k a d : aggcalc op k a DATUM_CLASS__NULL d = Returned a.
Proof.
  destruct (aggcalc_frame op k a DATUM_CLASS__NULL d) as [d' ->].
  rewrite NULL_is_not_NORMAL, Z.eqb_refl. reflexivity.
Qed.

Lemma aggcalc_NORMAL op k a d :
  exists d', aggcalc op k a DATUM_CLASS__NORMAL d =
             Returned {| accum_dclass := DATUM_CLASS__NORMAL;
                         accum_datum := d' |}.
Proof.
  destruct (aggcalc_frame op k a DATUM_CLASS__NORMAL d) as [d' ->].
  rewrite Z.eqb_refl. eauto.
Qed.

(** C2: a contribution whose class tag is NULL leaves the accumulator's
    class tag and raw value exactly as they were, for every kind and for
    the normal update, the atomic merge and the atomic update alike. *)
Theorem null_contribution_leaves_accumulator
        (op : aggcalc_op) (k : aggcalc_kind) (a : accum) (newval_datum : Datum) :
  exists a',
    aggcalc op k a DATUM_CLASS__NULL newval_datum = Returned a'
    /\ accum_dclass a' = accum_dclass a
    /\ accum_datum a' = accum_datum a.
Proof.
  exists a. rewrite aggcalc_NULL. auto.
Qed.

(** C10: the combine functions accept the class tags NORMAL and NULL and
    no other: with one of these two the call returns (its assertion
    holds), and with any other class tag the assertion of the non-NORMAL
    branch fails. *)
Theorem combine_accepts_only_NORMAL_and_NULL
        (op : aggcalc_op) (k : aggcalc_kind) (a : accum)
        (newval_dclass : cl_char) (newval_datum : Datum) :
  (newval_dclass = DATUM_CLASS__NORMAL \/ newval_dclass = DATUM_CLASS__NULL ->
   exists a', aggcalc op k a newval_dclass newval_datum = Returned a')
  /\ (newval_dclass <> DATUM_CLASS__NORMAL ->
      newval_dclass <> DATUM_CLASS__NULL ->
      aggcalc op k a newval_dclass newval_datum = AssertionFailed).
Proof.
  destruct (aggcalc_frame op k a newval_dclass newval_datum) as [d' E].
  rewrite E. split.
  - intros [-> | ->].
    + rewrite Z.eqb_refl. eauto.
    + destruct (DATUM_CLASS__NULL =? DATUM_CLASS__NORMAL); [eauto|].
      rewrite Z.eqb_refl. simpl. eauto.
  - intros N1 N2.
    apply Z.eqb_neq in N1, N2. rewrite N1, N2. reflexivity.
Qed.

(** *** Sequences of contributions *)

Lemma aggcalc_init_dclass k a :
  accum_dclass (aggcalc_init k a) = DATUM_CLASS__NULL.
Proof. destruct k; reflexivity. Qed.

(** The class tag after a sequence of accepted contributions: NORMAL as
    soon as one of them was NORMAL, and the initial tag otherwise. *)
Lemma feed_dclass k cs : forall a,
  Forall accepted cs ->
  exists a',
    feed k cs a = Returned a'
    /\ accum_dclass a' =
       if existsb is_NORMAL cs then DATUM_CLASS__NORMAL else accum_dclass a.
Proof.
  induction cs as [|c cs IH]; intros a Hcs.
  - exists a. split; reflexivity.
  - inversion Hcs as [|c' cs' Hc Hcs']; subst. simpl.
    unfold is_NORMAL at 1.
    destruct Hc as [Hc | Hc]; rewrite Hc.
    + destruct (aggcalc_NORMAL (c_op c) k a (c_datum c)) as [d' ->].
      rewrite Z.eqb_refl. simpl.
      destruct (IH {| accum_dclass := DATUM_CLASS__NORMAL;
                      accum_datum := d' |} Hcs') as (a' & Hf & Hd).
      exists a'. split; [exact Hf|].
      rewrite Hd. simpl. destruct (existsb is_NORMAL cs); reflexivity.
    + rewrite aggcalc_NULL, NULL_is_not_NORMAL. simpl. apply IH, Hcs'.
Qed.

Lemma all_NULL_iff cs :
  Forall accepted cs ->
  (existsb is_NORMAL cs = false
   <-> Forall (fun c => c_dclass c = DATUM_CLASS__NULL) cs).
Proof.
  induction 1 as [|c cs Hc Hcs IH]; simpl.
  - split; auto.
  - unfold is_NORMAL at 1. rewrite orb_false_iff, IH. split.
    + intros [N Hall]. constructor; [|exact Hall].
      apply Z.eqb_neq in N. destruct Hc; [contradiction | assumption].
    + intros Hall. inversion Hall as [|c' cs' Hn Hall']; subst.
      split; [|exact Hall']. rewrite Hn. apply NULL_is_not_NORMAL.
Qed.

Lemma some_NORMAL_iff cs :
  existsb is_NORMAL cs = true
  <-> Exists (fun c => c_dclass c = DATUM_CLASS__NORMAL) cs.
Proof.
  rewrite existsb_exists, Exists_exists.
  split; intros (c & Hin & Hc); exists c; (split; [exact Hin|]);
    unfold is_NORMAL in *; [apply Z.eqb_eq | apply Z.eqb_eq]; exact Hc.
Qed.

(** C3: an accumulator set up by init and fed a finite sequence of
    contributions is in the empty (NULL class) state if and only if every
    contribution was NULL; it is NORMAL if and only if some contribution
    was NORMAL, that is from the first non-NULL contribution on; and once
    NORMAL it stays NORMAL under whatever contributions follow. *)
Theorem accumulator_class_tracks_contributions
        (k : aggcalc_kind) (a0 : accum) (cs : list contribution) :
  Forall accepted cs ->
  exists a',
    feed k cs (aggcalc_init k a0) = Returned a'
    /\ (accum_dclass a' = DATUM_CLASS__NULL
        <-> Forall (fun c => c_dclass c = DATUM_CLASS__NULL) cs)
    /\ (accum_dclass a' = DATUM_CLASS__NORMAL
        <-> Exists (fun c => c_dclass c = DATUM_CLASS__NORMAL) cs)
    /\ (accum_dclass a' = DATUM_CLASS__NORMAL ->
        forall cs', Forall accepted cs' ->
        exists a'', feed k cs' a' = Returned a''
                    /\ accum_dclass a'' = DATUM_CLASS__NORMAL).
Proof.
  intros Hcs.
  destruct (feed_dclass k cs (aggcalc_init k a0) Hcs) as (a' & Hf & Hd).
  exists a'. split; [exact Hf|].
  rewrite aggcalc_init_dclass in Hd.
  rewrite <- (all_NULL_iff cs Hcs), <- some_NORMAL_iff.
  destruct (existsb is_NORMAL cs); rewrite Hd; repeat split;
    try reflexivity; try discriminate; try contradiction;
    try (intros E; symmetry in E; contradiction).
  all: intros HN cs' Hcs';
    destruct (feed_dclass k cs' a' Hcs') as (a'' & Hf' & Hd');
    exists a''; (split; [exact Hf'|]); rewrite Hd';
    destruct (existsb is_NORMAL cs'); [reflexivity | congruence].
Qed.

(** *** Integer sums *)

Lemma to_cl_uint_add_l x y : to_cl_uint (to_cl_uint x + y) = to_cl_uint (x + y).
Proof. unfold_cint. apply Z.add_mod_idemp_l. lia. Qed.

Lemma to_cl_uint_add_r x y : to_cl_uint (x + to_cl_uint y) = to_cl_uint (x + y).
Proof. unfold_cint. apply Z.add_mod_idemp_r. lia. Qed.

Lemma to_cl_ulong_add_l x y :
  to_cl_ulong (to_cl_ulong x + y) = to_cl_ulong (x + y).
Proof. unfold_cint. apply Z.add_mod_idemp_l. lia. Qed.

Lemma to_cl_ulong_add_r x y :
  to_cl_ulong (x + to_cl_ulong y) = to_cl_ulong (x + y).
Proof. unfold_cint. apply Z.add_mod_idemp_r. lia. Qed.

Lemma to_cl_uint_add_int_r x y :
  to_cl_uint (x + to_cl_int y) = to_cl_uint (x + y).
Proof.
  rewrite <- to_cl_uint_add_r, to_cl_uint_of_int. apply to_cl_uint_add_r.
Qed.

Lemma to_cl_ulong_add_long_r x y :
  to_cl_ulong (x + to_cl_long y) = to_cl_ulong (x + y).
Proof.
  rewrite <- to_cl_ulong_add_r, to_cl_ulong_of_long. apply to_cl_ulong_add_r.
Qed.

(** One NORMAL contribution to a 32-bit sum adds the contributed integer
    to the stored one, modulo 2^32, whichever operation delivers it. *)
Lemma add_int_step op a d :
  exists a',
    aggcalc op add_int a DATUM_CLASS__NORMAL d = Returned a'
    /\ load32 (accum_datum a')
       = to_cl_uint (load32 (accum_datum a) + contributed_int d).
Proof.
  destruct op; autounfold with aggcalc; rewrite Z.eqb_refl;
    eexists; (split; [reflexivity|]); simpl accum_datum;
    unfold atomicAdd_int, load_cl_int, contributed_int;
    rewrite load32_store32, to_cl_uint_of_int, to_cl_uint_add;
    symmetry; apply to_cl_uint_add_int_r.
Qed.

Lemma add_long_step op a d :
  exists a',
    aggcalc op add_long a DATUM_CLASS__NORMAL d = Returned a'
    /\ load64 (accum_datum a')
       = to_cl_ulong (load64 (accum_datum a) + contributed_long d).
Proof.
  destruct op; autounfold with aggcalc; rewrite Z.eqb_refl;
    eexists; (split; [reflexivity|]); simpl accum_datum;
    unfold atomicAdd_ulong, load_cl_long, load_cl_ulong, contributed_long;
    rewrite load64_store64, ?to_cl_ulong_of_long, ?to_cl_ulong_idem,
      ?to_cl_ulong_add, ?to_cl_ulong_add_r, ?to_cl_ulong_add_long_r;
    reflexivity.
Qed.

Lemma feed_add_int cs : forall a,
  all_NORMAL cs ->
  exists a',
    feed add_int cs a = Returned a'
    /\ load32 (accum_datum a')
       = to_cl_uint (load32 (accum_datum a)
                     + sum_Z (map (fun c => contributed_int (c_datum c)) cs)).
Proof.
  induction cs as [|c cs IH]; intros a Hcs.
  - exists a. split; [reflexivity|]. simpl. rewrite Z.add_0_r.
    unfold load32. symmetry. apply to_cl_uint_idem.
  - inversion Hcs as [|c' cs' Hc Hcs']; subst. simpl. rewrite Hc.
    destruct (add_int_step (c_op c) a (c_datum c)) as (a1 & -> & H1).
    simpl. destruct (IH a1 Hcs') as (a' & Hf & H'). exists a'.
    split; [exact Hf|]. rewrite H', H1, to_cl_uint_add_l.
    f_equal. lia.
Qed.

Lemma feed_add_long cs : forall a,
  all_NORMAL cs ->
  exists a',
    feed add_long cs a = Returned a'
    /\ load64 (accum_datum a')
       = to_cl_ulong (load64 (accum_datum a)
                      + sum_Z (map (fun c => contributed_long (c_datum c)) cs)).
Proof.
  induction cs as [|c cs IH]; intros a Hcs.
  - exists a. split; [reflexivity|]. simpl. rewrite Z.add_0_r.
    unfold load64. symmetry. apply to_cl_ulong_idem.
  - inversion Hcs as [|c' cs' Hc Hcs']; subst. simpl. rewrite Hc.
    destruct (add_long_step (c_op c) a (c_datum c)) as (a1 & -> & H1).
    simpl. destruct (IH a1 Hcs') as (a' & Hf & H'). exists a'.
    split; [exact Hf|]. rewrite H', H1, to_cl_ulong_add_l.
    f_equal. lia.
Qed.

(** C6: after any finite sequence of NORMAL contributions to a freshly
    initialized 32-bit (resp. 64-bit) integer sum, delivered by any mix of
    normal updates, atomic merges and atomic updates, the stored word is
    the mathematical sum of the contributed integers modulo 2^32 (resp.
    2^64), and read as a signed integer it is that sum wrapped around to
    the two's complement range: overflow wraps, it does not saturate. *)
Theorem integer_sum_wraps_around (a0 : accum) (cs : list contribution) :
  all_NORMAL cs ->
  (exists a',
      feed add_int cs (aggcalc_init add_int a0) = Returned a'
      /\ load_cl_uint (accum_datum a')
         = sum_Z (map (fun c => contributed_int (c_datum c)) cs) mod 2 ^ 32
      /\ load_cl_int (accum_datum a')
         = to_cl_int (sum_Z (map (fun c => contributed_int (c_datum c)) cs)))
  /\ (exists a',
         feed add_long cs (aggcalc_init add_long a0) = Returned a'
         /\ load_cl_ulong (accum_datum a')
            = sum_Z (map (fun c => contributed_long (c_datum c)) cs) mod 2 ^ 64
         /\ load_cl_long (accum_datum a')
            = to_cl_long
                (sum_Z (map (fun c => contributed_long (c_datum c)) cs))).
Proof.
  intros Hcs. split.
  - destruct (feed_add_int cs (aggcalc_init add_int a0) Hcs) as (a' & Hf & H).
    exists a'. split; [exact Hf|].
    change (load32 (accum_datum (aggcalc_init add_int a0))) with 0 in H.
    rewrite Z.add_0_l in H. unfold load_cl_int, load_cl_uint.
    rewrite H. split; [reflexivity | apply to_cl_int_of_uint].
  - destruct (feed_add_long cs (aggcalc_init add_long a0) Hcs) as (a' & Hf & H).
    exists a'. split; [exact Hf|].
    change (load64 (accum_datum (aggcalc_init add_long a0))) with 0 in H.
    rewrite Z.add_0_l in H. unfold load_cl_long, load_cl_ulong.
    rewrite H. split; [reflexivity | apply to_cl_long_of_ulong].
Qed.

(** *** An accumulator fresh from init *)

Lemma Min_top c x : x <= c -> Min int_lt c x = x /\ atomicMin c x = x.
Proof.
  intros H. unfold Min, int_lt, atomicMin. split.
  - destruct (c <? x) eqn:E; [apply Z.ltb_lt in E; lia | reflexivity].
  - apply Z.min_r, H.
Qed.

Lemma Max_bottom c x : c <= x -> Max int_gt c x = x /\ atomicMax c x = x.
Proof.
  intros H. unfold Max, int_gt, atomicMax. split.
  - rewrite Z.gtb_ltb.
    destruct (x <? c) eqn:E; [apply Z.ltb_lt in E; lia | reflexivity].
  - apply Z.max_r, H.
Qed.

Lemma kind_value_of_bits k d1 d2 :
  kind_bits k d1 = kind_bits k d2 -> kind_value k d1 = kind_value k d2.
Proof.
  destruct k; unfold kind_bits, kind_value, load_cl_int, load_cl_long,
    load_cl_float, load_cl_double; intros ->; reflexivity.
Qed.

Ltac enter_combine :=
  autounfold with aggcalc; rewrite Z.eqb_refl;
  cbn [accum_datum set_datum set_dclass accum_dclass];
  eexists; (split; [reflexivity|]); (split; [reflexivity|]);
  cbn [accum_datum set_datum set_dclass accum_dclass kind_bits];
  rewrite ?load32_store32, ?load64_store64.

Lemma fresh_min_int op a0 d :
  exists a',
    aggcalc op min_int (aggcalc_init min_int a0) DATUM_CLASS__NORMAL d
    = Returned a'
    /\ accum_dclass a' = DATUM_CLASS__NORMAL
    /\ kind_bits min_int (accum_datum a') = kind_bits min_int d.
Proof.
  pose proof (to_cl_int_range (Z.land d 0xffffffff)) as R.
  destruct (Min_top INT_MAX _ (proj2 R)) as [M1 M2].
  destruct op; enter_combine;
    change (load_cl_int (to_Datum (to_Datum INT_MAX))) with INT_MAX;
    rewrite ?M1, ?M2;
    rewrite to_cl_uint_of_int, land_mask32; apply to_cl_uint_idem.
Qed.

Lemma fresh_max_int op a0 d :
  exists a',
    aggcalc op max_int (aggcalc_init max_int a0) DATUM_CLASS__NORMAL d
    = Returned a'
    /\ accum_dclass a' = DATUM_CLASS__NORMAL
    /\ kind_bits max_int (accum_datum a') = kind_bits max_int d.
Proof.
  pose proof (to_cl_int_range (Z.land d 0xffffffff)) as R.
  destruct (Max_bottom INT_MIN _ (proj1 R)) as [M1 M2].
  destruct op; enter_combine;
    change (load_cl_int (to_Datum (to_Datum INT_MIN))) with INT_MIN;
    rewrite ?M1, ?M2;
    rewrite to_cl_uint_of_int, land_mask32; apply to_cl_uint_idem.
Qed.

Lemma fresh_min_long op a0 d :
  exists a',
    aggcalc op min_long (aggcalc_init min_long a0) DATUM_CLASS__NORMAL d
    = Returned a'
    /\ accum_dclass a' = DATUM_CLASS__NORMAL
    /\ kind_bits min_long (accum_datum a') = kind_bits min_long d.
Proof.
  pose proof (to_cl_long_range d) as R.
  destruct (Min_top LONG_MAX _ (proj2 R)) as [M1 M2].
  destruct op; enter_combine;
    change (load_cl_long (to_Datum (to_Datum LONG_MAX))) with LONG_MAX;
    rewrite ?M1, ?M2;
    apply to_cl_ulong_of_long.
Qed.

Lemma fresh_max_long op a0 d :
  exists a',
    aggcalc op max_long (aggcalc_init max_long a0) DATUM_CLASS__NORMAL d
    = Returned a'
    /\ accum_dclass a' = DATUM_CLASS__NORMAL
    /\ kind_bits max_long (accum_datum a') = kind_bits max_long d.
Proof.
  pose proof (to_cl_long_range d) as R.
  destruct (Max_bottom LONG_MIN _ (proj1 R)) as [M1 M2].
  destruct op; enter_combine;
    change (load_cl_long (to_Datum (to_Datum LONG_MIN))) with LONG_MIN;
    rewrite ?M1, ?M2;
    apply to_cl_ulong_of_long.
Qed.

Lemma fresh_add_int op a0 d :
  exists a',
    aggcalc op add_int (aggcalc_init add_int a0) DATUM_CLASS__NORMAL d
    = Returned a'
    /\ accum_dclass a' = DATUM_CLASS__NORMAL
    /\ kind_bits add_int (accum_datum a') = kind_bits add_int d.
Proof.
  destruct op; enter_combine; unfold atomicAdd_int;
    change (load_cl_int (to_Datum 0)) with 0;
    rewrite Z.add_0_l, !to_cl_uint_of_int, land_mask32;
    apply to_cl_uint_idem.
Qed.

Lemma fresh_add_long op a0 d :
  exists a',
    aggcalc op add_long (aggcalc_init add_long a0) DATUM_CLASS__NORMAL d
    = Returned a'
    /\ accum_dclass a' = DATUM_CLASS__NORMAL
    /\ kind_bits add_long (accum_datum a') = kind_bits add_long d.
Proof.
  destruct op; enter_combine; unfold atomicAdd_ulong;
    [change (load_cl_long (to_Datum 0)) with 0
    |change (load_cl_ulong (to_Datum 0)) with 0
    |change (load_cl_ulong (to_Datum 0)) with 0];
    rewrite Z.add_0_l, ?to_cl_ulong_of_long, ?to_cl_ulong_idem; reflexivity.
Qed.

Lemma float_lt_FLT_MAX v :
  is_pos_inf (b32_decode v) = false -> float_lt FLT_MAX v = false.
Proof.
  intros H. unfold float_lt.
  change (b32_decode FLT_MAX) with (S754_finite false 16777215 (128 - 24)).
  apply (SFltb_max_float 24 128); [reflexivity | | exact H].
  intros s m e E. apply b32_decode_finite_bounds in E. exact E.
Qed.

Lemma float_gt_neg_FLT_MAX v :
  is_neg_inf (b32_decode v) = false -> float_gt (float_neg FLT_MAX) v = false.
Proof.
  intros H. unfold float_gt.
  change (b32_decode (float_neg FLT_MAX))
    with (S754_finite true 16777215 (128 - 24)).
  apply (SFltb_min_float 24 128); [reflexivity | | exact H].
  intros s m e E. apply b32_decode_finite_bounds in E. exact E.
Qed.

Lemma double_lt_DBL_MAX v :
  is_pos_inf (b64_decode v) = false -> double_lt DBL_MAX v = false.
Proof.
  intros H. unfold double_lt.
  change (b64_decode DBL_MAX)
    with (S754_finite false 9007199254740991 (1024 - 53)).
  apply (SFltb_max_float 53 1024); [reflexivity | | exact H].
  intros s m e E. apply b64_decode_finite_bounds in E. exact E.
Qed.

Lemma double_gt_neg_DBL_MAX v :
  is_neg_inf (b64_decode v) = false ->
  double_gt (double_neg DBL_MAX) v = false.
Proof.
  intros H. unfold double_gt.
  change (b64_decode (double_neg DBL_MAX))
    with (S754_finite true 9007199254740991 (1024 - 53)).
  apply (SFltb_min_float 53 1024); [reflexivity | | exact H].
  intros s m e E. apply b64_decode_finite_bounds in E. exact E.
Qed.

Lemma SFadd_zero_l prec emax f :
  is_neg_zero f = false -> SFadd prec emax (S754_zero false) f = f.
Proof. destruct f as [[]|s| |s m e]; simpl; try reflexivity. discriminate. Qed.

Lemma float_add_zero_l v :
  0 <= v < 2 ^ 32 ->
  is_nan (b32_decode v) = false -> is_neg_zero (b32_decode v) = false ->
  float_add float_zero v = v.
Proof.
  intros R N Z. unfold float_add.
  change (b32_decode float_zero) with (S754_zero false).
  rewrite SFadd_zero_l by exact Z. apply b32_encode_decode; assumption.
Qed.

Lemma double_add_zero_l v :
  0 <= v < 2 ^ 64 ->
  is_nan (b64_decode v) = false -> is_neg_zero (b64_decode v) = false ->
  double_add double_zero v = v.
Proof.
  intros R N Z. unfold double_add.
  change (b64_decode double_zero) with (S754_zero false).
  rewrite SFadd_zero_l by exact Z. apply b64_encode_decode; assumption.
Qed.

Lemma int_as_float_mask d : __int_as_float (Z.land d 0xffffffff) = load32 d.
Proof.
  unfold __int_as_float, load32. rewrite land_mask32. apply to_cl_uint_idem.
Qed.

Lemma int_as_float_load32 d : __int_as_float (load32 d) = load32 d.
Proof. unfold __int_as_float, load32. apply to_cl_uint_idem. Qed.

Lemma longlong_as_double_load64 d : __longlong_as_double (load64 d) = load64 d.
Proof. unfold __longlong_as_double, load64. apply to_cl_ulong_idem. Qed.

Ltac enter_float_combine d :=
  enter_combine; unfold load_cl_float, load_cl_uint;
  rewrite ?cas_retry_sequential, ?land_mask32;
  fold (load32 d); rewrite ?int_as_float_load32, ?to_cl_uint_idem.

Lemma fresh_min_float op a0 d :
  is_pos_inf (b32_decode (load32 d)) = false ->
  exists a',
    aggcalc op min_float (aggcalc_init min_float a0) DATUM_CLASS__NORMAL d
    = Returned a'
    /\ accum_dclass a' = DATUM_CLASS__NORMAL
    /\ kind_bits min_float (accum_datum a') = kind_bits min_float d.
Proof.
  intros H. apply float_lt_FLT_MAX in H.
  destruct op; enter_float_combine d;
    change (load32 (to_Datum (__float_as_int FLT_MAX))) with FLT_MAX;
    unfold Min; rewrite H; apply to_cl_uint_idem.
Qed.

Lemma fresh_max_float op a0 d :
  is_neg_inf (b32_decode (load32 d)) = false ->
  exists a',
    aggcalc op max_float (aggcalc_init max_float a0) DATUM_CLASS__NORMAL d
    = Returned a'
    /\ accum_dclass a' = DATUM_CLASS__NORMAL
    /\ kind_bits max_float (accum_datum a') = kind_bits max_float d.
Proof.
  intros H. apply float_gt_neg_FLT_MAX in H.
  destruct op; enter_float_combine d;
    change (load32 (to_Datum (__float_as_int (float_neg FLT_MAX))))
      with (float_neg FLT_MAX);
    unfold Max; rewrite H; apply to_cl_uint_idem.
Qed.

Lemma fresh_add_float op a0 d :
  is_nan (b32_decode (load32 d)) = false ->
  is_neg_zero (b32_decode (load32 d)) = false ->
  exists a',
    aggcalc op add_float (aggcalc_init add_float a0) DATUM_CLASS__NORMAL d
    = Returned a'
    /\ accum_dclass a' = DATUM_CLASS__NORMAL
    /\ kind_bits add_float (accum_datum a') = kind_bits add_float d.
Proof.
  intros N Z.
  pose proof (float_add_zero_l (load32 d) (to_cl_uint_range d) N Z) as H.
  destruct op; enter_combine; unfold atomicAdd_float, load_cl_float;
    rewrite int_as_float_mask;
    change (load32 (to_Datum (__float_as_int float_zero))) with float_zero;
    rewrite H; apply to_cl_uint_idem.
Qed.

Ltac enter_double_combine d :=
  enter_combine; unfold load_cl_double, load_cl_ulong;
  rewrite ?cas_retry_sequential;
  unfold __longlong_as_double; rewrite ?to_cl_ulong_idem;
  fold (load64 d).

Lemma fresh_min_double op a0 d :
  is_pos_inf (b64_decode (load64 d)) = false ->
  exists a',
    aggcalc op min_double (aggcalc_init min_double a0) DATUM_CLASS__NORMAL d
    = Returned a'
    /\ accum_dclass a' = DATUM_CLASS__NORMAL
    /\ kind_bits min_double (accum_datum a') = kind_bits min_double d.
Proof.
  intros H. apply double_lt_DBL_MAX in H.
  destruct op; enter_double_combine d;
    change (to_cl_ulong (__double_as_longlong DBL_MAX)) with DBL_MAX;
    unfold Min; rewrite H; apply to_cl_ulong_idem.
Qed.

Lemma fresh_max_double op a0 d :
  is_neg_inf (b64_decode (load64 d)) = false ->
  exists a',
    aggcalc op max_double (aggcalc_init max_double a0) DATUM_CLASS__NORMAL d
    = Returned a'
    /\ accum_dclass a' = DATUM_CLASS__NORMAL
    /\ kind_bits max_double (accum_datum a') = kind_bits max_double d.
Proof.
  intros H. apply double_gt_neg_DBL_MAX in H.
  destruct op; enter_double_combine d;
    change (to_cl_ulong (__double_as_longlong (double_neg DBL_MAX)))
      with (double_neg DBL_MAX);
    unfold Max; rewrite H; apply to_cl_ulong_idem.
Qed.

Lemma fresh_add_double op a0 d :
  is_nan (b64_decode (load64 d)) = false ->
  is_neg_zero (b64_decode (load64 d)) = false ->
  exists a',
    aggcalc op add_double (aggcalc_init add_double a0) DATUM_CLASS__NORMAL d
    = Returned a'
    /\ accum_dclass a' = DATUM_CLASS__NORMAL
    /\ kind_bits add_double (accum_datum a') = kind_bits add_double d.
Proof.
  intros N Z.
  pose proof (double_add_zero_l (load64 d) (to_cl_ulong_range d) N Z) as H.
  destruct op; enter_double_combine d; unfold atomicAdd_double;
    change (to_cl_ulong (__double_as_longlong double_zero))
      with double_zero;
    rewrite H; apply to_cl_ulong_idem.
Qed.

(** C1, as the code has it: one NORMAL combine of a value into an
    accumulator fresh from init leaves the accumulator NORMAL with exactly
    the contributed bits, hence the contributed value, for every value of
    the integer kinds; for every value but +infinity of the floating point
    min kinds; for every value but -infinity of the floating point max
    kinds; and for every number other than the negative zero of the
    floating point sum kinds.  This holds for the normal update, the
    atomic merge and the atomic update. *)
Theorem fresh_accumulator_takes_contribution
        (op : aggcalc_op) (k : aggcalc_kind) (a0 : accum) (v : Datum) :
  restored_by_init k v = true ->
  exists a',
    aggcalc op k (aggcalc_init k a0) DATUM_CLASS__NORMAL v = Returned a'
    /\ accum_dclass a' = DATUM_CLASS__NORMAL
    /\ kind_bits k (accum_datum a') = kind_bits k v
    /\ kind_value k (accum_datum a') = kind_value k v.
Proof.
  intros H.
  assert (exists a',
             aggcalc op k (aggcalc_init k a0) DATUM_CLASS__NORMAL v
             = Returned a'
             /\ accum_dclass a' = DATUM_CLASS__NORMAL
             /\ kind_bits k (accum_datum a') = kind_bits k v) as (a' & E & C & B).
  { destruct k; unfold restored_by_init, kind_value, load_cl_float,
      load_cl_double in H.
    - apply fresh_min_int.
    - apply fresh_max_int.
    - apply fresh_add_int.
    - apply fresh_min_long.
    - apply fresh_max_long.
    - apply fresh_add_long.
    - apply fresh_min_float, negb_true_iff, H.
    - apply fresh_max_float, negb_true_iff, H.
    - apply andb_prop in H as [H1 H2].
      apply fresh_add_float; apply negb_true_iff; assumption.
    - apply fresh_min_double, negb_true_iff, H.
    - apply fresh_max_double, negb_true_iff, H.
    - apply andb_prop in H as [H1 H2].
      apply fresh_add_double; apply negb_true_iff; assumption. }
  exists a'. repeat split; try assumption.
  apply kind_value_of_bits, B.
Qed.

(** *** Floating point min and max *)

Lemma min_float_bits op a d :
  exists a',
    aggcalc op min_float a DATUM_CLASS__NORMAL d = Returned a'
    /\ accum_dclass a' = DATUM_CLASS__NORMAL
    /\ kind_bits min_float (accum_datum a')
       = if float_lt (load32 (accum_datum a)) (load32 d)
         then load32 (accum_datum a) else load32 d.
Proof.
  destruct op; enter_float_combine d; unfold Min;
    destruct (float_lt _ _); apply to_cl_uint_idem.
Qed.

Lemma max_float_bits op a d :
  exists a',
    aggcalc op max_float a DATUM_CLASS__NORMAL d = Returned a'
    /\ accum_dclass a' = DATUM_CLASS__NORMAL
    /\ kind_bits max_float (accum_datum a')
       = if float_gt (load32 (accum_datum a)) (load32 d)
         then load32 (accum_datum a) else load32 d.
Proof.
  destruct op; enter_float_combine d; unfold Max;
    destruct (float_gt _ _); apply to_cl_uint_idem.
Qed.

Lemma min_double_bits op a d :
  exists a',
    aggcalc op min_double a DATUM_CLASS__NORMAL d = Returned a'
    /\ accum_dclass a' = DATUM_CLASS__NORMAL
    /\ kind_bits min_double (accum_datum a')
       = if double_lt (load64 (accum_datum a)) (load64 d)
         then load64 (accum_datum a) else load64 d.
Proof.
  destruct op; enter_double_combine d; fold (load64 (accum_datum a));
    unfold Min; destruct (double_lt _ _); apply to_cl_ulong_idem.
Qed.

Lemma max_double_bits op a d :
  exists a',
    aggcalc op max_double a DATUM_CLASS__NORMAL d = Returned a'
    /\ accum_dclass a' = DATUM_CLASS__NORMAL
    /\ kind_bits max_double (accum_datum a')
       = if double_gt (load64 (accum_datum a)) (load64 d)
         then load64 (accum_datum a) else load64 d.
Proof.
  destruct op; enter_double_combine d; fold (load64 (accum_datum a));
    unfold Max; destruct (double_gt _ _); apply to_cl_ulong_idem.
Qed.

Lemma pick_min x y :
  is_nan x = false -> is_nan y = false ->
  SFleb (if SFltb x y then x else y) x = true
  /\ SFleb (if SFltb x y then x else y) y = true.
Proof.
  intros Hx Hy. destruct (SFltb x y) eqn:L.
  - split; [apply SFleb_refl, Hx | apply SFltb_leb, L].
  - split; [apply SFltb_false_leb; assumption | apply SFleb_refl, Hy].
Qed.

Lemma pick_max x y :
  is_nan x = false -> is_nan y = false ->
  SFleb x (if SFltb y x then x else y) = true
  /\ SFleb y (if SFltb y x then x else y) = true.
Proof.
  intros Hx Hy. destruct (SFltb y x) eqn:L.
  - split; [apply SFleb_refl, Hx | apply SFltb_leb, L].
  - split; [apply SFltb_false_leb; assumption | apply SFleb_refl, Hy].
Qed.

(** C5: without concurrent writers, one NORMAL call of the atomic merge
    (or of the update macro over it, or of the normal update) of a
    floating point min kind leaves in the accumulator the bits of the old
    value if the old value is less than the contributed one as floating
    point numbers, and the bits of the contributed value otherwise; when
    neither is a NaN the result is below or equal to both, so it is their
    floating point minimum.  Symmetrically for the max kinds.  The
    comparison is the one on the decoded values, not on the raw words. *)
Theorem float_merge_keeps_extremum
        (op : aggcalc_op) (k : aggcalc_kind) (dir : direction)
        (a : accum) (newval_datum : Datum) :
  float_minmax k = Some dir ->
  is_nan (kind_float k (accum_datum a)) = false ->
  is_nan (kind_float k newval_datum) = false ->
  exists a',
    aggcalc op k a DATUM_CLASS__NORMAL newval_datum = Returned a'
    /\ accum_dclass a' = DATUM_CLASS__NORMAL
    /\ kind_bits k (accum_datum a')
       = (if match dir with
             | towards_min =>
                 SFltb (kind_float k (accum_datum a)) (kind_float k newval_datum)
             | towards_max =>
                 SFltb (kind_float k newval_datum) (kind_float k (accum_datum a))
             end
          then kind_bits k (accum_datum a) else kind_bits k newval_datum)
    /\ match dir with
       | towards_min =>
           SFleb (kind_float k (accum_datum a')) (kind_float k (accum_datum a))
           = true
           /\ SFleb (kind_float k (accum_datum a')) (kind_float k newval_datum)
              = true
       | towards_max =>
           SFleb (kind_float k (accum_datum a)) (kind_float k (accum_datum a'))
           = true
           /\ SFleb (kind_float k newval_datum) (kind_float k (accum_datum a'))
              = true
       end.
Proof.
  intros Hk Ho Hn.
  destruct k; try discriminate Hk; injection Hk as <-;
    unfold kind_float, kind_value, load_cl_float, load_cl_double in *;
    [ destruct (min_float_bits op a newval_datum) as (a' & E & C & B)
    | destruct (max_float_bits op a newval_datum) as (a' & E & C & B)
    | destruct (min_double_bits op a newval_datum) as (a' & E & C & B)
    | destruct (max_double_bits op a newval_datum) as (a' & E & C & B) ];
    exists a'; (split; [exact E|]); (split; [exact C|]);
    unfold kind_bits, float_lt, float_gt, double_lt, double_gt in *;
    rewrite B; (split; [reflexivity|]).
  - pose proof (pick_min _ _ Ho Hn) as P. destruct (SFltb _ _); exact P.
  - pose proof (pick_max _ _ Ho Hn) as P. destruct (SFltb _ _); exact P.
  - pose proof (pick_min _ _ Ho Hn) as P. destruct (SFltb _ _); exact P.
  - pose proof (pick_max _ _ Ho Hn) as P. destruct (SFltb _ _); exact P.
Qed.

(** C4, as the code has it: init marks the slot NULL and writes the
    kind's initial value: the greatest integer of the type for the integer
    min kinds and the least for the integer max kinds; the largest finite
    floating point number, [FLT_MAX] or [DBL_MAX], for the floating point
    min kinds and its negation for the floating point max kinds; zero for
    the sum kinds.  [aggcalc_init_null] writes a zero word. *)
Theorem init_writes_initial_value (k : aggcalc_kind) (a0 : accum) :
  accum_dclass (aggcalc_init k a0) = DATUM_CLASS__NULL
  /\ kind_value k (accum_datum (aggcalc_init k a0)) = init_value k
  /\ aggcalc_init_null a0
     = {| accum_dclass := DATUM_CLASS__NULL; accum_datum := 0 |}.
Proof.
  destruct k; repeat split; reflexivity.
Qed.

(** ** Further properties of the combine functions *)

Lemma Min_int_lt x y : Min int_lt x y = Z.min x y.
Proof.
  unfold Min, int_lt. destruct (x <? y) eqn:E.
  - apply Z.ltb_lt in E. symmetry. apply Z.min_l. lia.
  - apply Z.ltb_ge in E. symmetry. apply Z.min_r. lia.
Qed.

Lemma Max_int_gt x y : Max int_gt x y = Z.max x y.
Proof.
  unfold Max, int_gt. rewrite Z.gtb_ltb. destruct (y <? x) eqn:E.
  - apply Z.ltb_lt in E. symmetry. apply Z.max_l. lia.
  - apply Z.ltb_ge in E. symmetry. apply Z.max_r. lia.
Qed.

(** The atomic merge, run without interference, and the normal update
    are the same function, for every kind and every input. *)
Theorem merge_agrees_with_normal
        (k : aggcalc_kind) (a : accum)
        (newval_dclass : cl_char) (newval_datum : Datum) :
  aggcalc op_merge k a newval_dclass newval_datum
  = aggcalc op_normal k a newval_dclass newval_datum
  /\ aggcalc op_update k a newval_dclass newval_datum
     = aggcalc op_normal k a newval_dclass newval_datum.
Proof.
  assert (H : aggcalc op_merge k a newval_dclass newval_datum
              = aggcalc op_normal k a newval_dclass newval_datum).
  { destruct k; autounfold with aggcalc;
      destruct (newval_dclass =? DATUM_CLASS__NORMAL); try reflexivity;
      unfold atomicMin, atomicMax, atomicAdd_int, atomicAdd_ulong,
        atomicAdd_float, atomicAdd_double, load_cl_uint, load_cl_float,
        load_cl_ulong, load_cl_double, load_cl_long;
      rewrite ?Min_int_lt, ?Max_int_gt, ?cas_retry_sequential;
      try reflexivity.
    - (* add_long *)
      unfold store64. do 2 f_equal.
      rewrite to_cl_ulong_of_long, to_cl_ulong_idem, to_cl_ulong_add_r,
        to_cl_ulong_add. reflexivity.
    - (* min_float *)
      unfold Min. rewrite int_as_float_mask, land_mask32, to_cl_uint_idem.
      fold (load32 newval_datum).
      rewrite !int_as_float_load32. reflexivity.
    - (* max_float *)
      unfold Max. rewrite int_as_float_mask, land_mask32, to_cl_uint_idem.
      fold (load32 newval_datum).
      rewrite !int_as_float_load32. reflexivity.
    - (* min_double *)
      unfold Min, __longlong_as_double, load64.
      rewrite !to_cl_ulong_idem. reflexivity.
    - (* max_double *)
      unfold Max, __longlong_as_double, load64.
      rewrite !to_cl_ulong_idem. reflexivity.
    - (* add_double *)
      unfold __longlong_as_double. rewrite to_cl_ulong_idem. reflexivity. }
  split; [exact H|]. destruct k; exact H.
Qed.

(** *** The integer kinds in closed form *)

Lemma to_cl_int_small x : INT_MIN <= x <= INT_MAX -> to_cl_int x = x.
Proof.
  unfold INT_MIN, INT_MAX. intros H. unfold_cint.
  destruct (Z_lt_le_dec x 0).
  - replace (x mod 4294967296) with (x + 4294967296).
    + destruct (_ <? _) eqn:E; [apply Z.ltb_lt in E; lia | lia].
    + apply Z.mod_unique with (q := -1); lia.
  - rewrite Z.mod_small by lia.
    destruct (_ <? _) eqn:E; [reflexivity | apply Z.ltb_ge in E; lia].
Qed.

Lemma to_cl_long_small x : LONG_MIN <= x <= LONG_MAX -> to_cl_long x = x.
Proof.
  unfold LONG_MIN, LONG_MAX. intros H. unfold_cint.
  destruct (Z_lt_le_dec x 0).
  - replace (x mod 18446744073709551616) with (x + 18446744073709551616).
    + destruct (_ <? _) eqn:E; [apply Z.ltb_lt in E; lia | lia].
    + apply Z.mod_unique with (q := -1); lia.
  - rewrite Z.mod_small by lia.
    destruct (_ <? _) eqn:E; [reflexivity | apply Z.ltb_ge in E; lia].
Qed.

Lemma store32_congr x v w : to_cl_uint v = to_cl_uint w -> store32 x v = store32 x w.
Proof. unfold store32. intros ->. reflexivity. Qed.

Lemma store32_store32 x v w : store32 (store32 x v) w = store32 x w.
Proof.
  unfold store32 at 1. fold (load32 (store32 x v)). rewrite load32_store32.
  unfold store32. lia.
Qed.

Lemma store32_to_cl_int x v : store32 x (to_cl_int v) = store32 x v.
Proof. apply store32_congr, to_cl_uint_of_int. Qed.

Lemma store64_to_cl_long x v : store64 x (to_cl_long v) = store64 x v.
Proof. unfold store64. apply to_cl_ulong_of_long. Qed.

Lemma stored_integer_range k d :
  wrap_integer k (stored_integer k d) = stored_integer k d.
Proof.
  unfold wrap_integer, stored_integer. destruct (narrow_kind k).
  - apply to_cl_int_small, to_cl_int_range.
  - apply to_cl_long_small, to_cl_long_range.
Qed.

Lemma contributed_integer_range k d :
  wrap_integer k (contributed_integer k d) = contributed_integer k d.
Proof.
  unfold wrap_integer, contributed_integer. destruct (narrow_kind k).
  - apply to_cl_int_small, to_cl_int_range.
  - apply to_cl_long_small, to_cl_long_range.
Qed.

Lemma stored_store_integer k x v :
  stored_integer k (store_integer k x v) = wrap_integer k v.
Proof.
  unfold stored_integer, store_integer, wrap_integer.
  destruct (narrow_kind k).
  - unfold load_cl_int. rewrite load32_store32. apply to_cl_int_of_uint.
  - unfold load_cl_long. rewrite load64_store64. apply to_cl_long_of_ulong.
Qed.

Lemma store_store_integer k x v w :
  store_integer k (store_integer k x v) w = store_integer k x w.
Proof.
  unfold store_integer. destruct (narrow_kind k).
  - apply store32_store32.
  - reflexivity.
Qed.

Lemma store_wrap_integer k x v :
  store_integer k x (wrap_integer k v) = store_integer k x v.
Proof.
  unfold store_integer, wrap_integer. destruct (narrow_kind k).
  - apply store32_to_cl_int.
  - apply store64_to_cl_long.
Qed.

(** A call on an accumulator of an integer kind, whichever the
    operation. *)
Lemma integer_step op k a c d :
  integer_kind k = true ->
  aggcalc op k a c d =
  if c =? DATUM_CLASS__NORMAL
  then Returned
         {| accum_dclass := DATUM_CLASS__NORMAL;
            accum_datum :=
              store_integer k (accum_datum a)
                (integer_combine k (stored_integer k (accum_datum a))
                                 (contributed_integer k d)) |}
  else assert (c =? DATUM_CLASS__NULL) a.
Proof.
  intros Hk.
  destruct (merge_agrees_with_normal k a c d) as [Hm Hu].
  assert (aggcalc op k a c d = aggcalc op_normal k a c d) as ->
      by (destruct op; [reflexivity | exact Hm | exact Hu]).
  destruct k; try discriminate Hk; autounfold with aggcalc;
    destruct (c =? DATUM_CLASS__NORMAL); try reflexivity;
    unfold set_dclass, set_datum; cbn [accum_datum accum_dclass];
    unfold store_integer, stored_integer, contributed_integer,
      integer_combine, contributed_int, contributed_long;
    cbn [narrow_kind]; rewrite ?Min_int_lt, ?Max_int_gt,
      ?store32_to_cl_int, ?store64_to_cl_long; reflexivity.
Qed.

Lemma integer_combine_wrap k s v :
  integer_kind k = true -> minmax_kind k = true ->
  wrap_integer k s = s -> wrap_integer k v = v ->
  wrap_integer k (integer_combine k s v) = integer_combine k s v.
Proof.
  intros Hk Hm Hs Hv.
  destruct k; try discriminate Hk; try discriminate Hm;
    unfold integer_combine;
    (apply Z.min_case || apply Z.max_case); assumption.
Qed.

Lemma integer_update_comm k x d1 d2 :
  integer_kind k = true ->
  integer_update k (integer_update k x d1) d2
  = integer_update k (integer_update k x d2) d1.
Proof.
  intros Hk. unfold integer_update.
  rewrite !store_store_integer, !stored_store_integer.
  pose proof (stored_integer_range k x) as Hs.
  pose proof (contributed_integer_range k d1) as H1.
  pose proof (contributed_integer_range k d2) as H2.
  remember (stored_integer k x) as s.
  remember (contributed_integer k d1) as v1.
  remember (contributed_integer k d2) as v2.
  destruct (minmax_kind k) eqn:Hm.
  - rewrite !integer_combine_wrap by assumption.
    f_equal. destruct k; try discriminate Hk; try discriminate Hm;
      unfold integer_combine; lia.
  - destruct k; try discriminate Hk; try discriminate Hm;
      unfold integer_combine, store_integer, wrap_integer;
      cbn [narrow_kind].
    + apply store32_congr.
      rewrite !(Z.add_comm (to_cl_int _)), !to_cl_uint_add_int_r.
      f_equal. lia.
    + unfold store64.
      rewrite !(Z.add_comm (to_cl_long _)), !to_cl_ulong_add_long_r.
      f_equal. lia.
Qed.

Lemma integer_update_idem k x d :
  integer_kind k = true -> minmax_kind k = true ->
  integer_update k (integer_update k x d) d = integer_update k x d.
Proof.
  intros Hk Hm. unfold integer_update.
  rewrite !store_store_integer, !stored_store_integer.
  rewrite integer_combine_wrap
    by (try assumption; apply stored_integer_range
                        || apply contributed_integer_range).
  f_equal. destruct k; try discriminate Hk; try discriminate Hm;
    unfold integer_combine; lia.
Qed.

Lemma integer_step_update op k a c d :
  integer_kind k = true ->
  aggcalc op k a c d =
  if c =? DATUM_CLASS__NORMAL
  then Returned {| accum_dclass := DATUM_CLASS__NORMAL;
                   accum_datum := integer_update k (accum_datum a) d |}
  else assert (c =? DATUM_CLASS__NULL) a.
Proof. apply integer_step. Qed.

(** Two calls on an accumulator of an integer kind commute. *)
Lemma integer_calls_commute k op1 c1 d1 op2 c2 d2 a (f : accum -> outcome) :
  integer_kind k = true ->
  bind (aggcalc op1 k a c1 d1) (fun a1 => bind (aggcalc op2 k a1 c2 d2) f)
  = bind (aggcalc op2 k a c2 d2) (fun a2 => bind (aggcalc op1 k a2 c1 d1) f).
Proof.
  intros Hk.
  rewrite (integer_step_update op1 k a c1 d1 Hk),
          (integer_step_update op2 k a c2 d2 Hk).
  destruct (c1 =? DATUM_CLASS__NORMAL) eqn:N1;
    destruct (c2 =? DATUM_CLASS__NORMAL) eqn:N2;
    try (destruct (c1 =? DATUM_CLASS__NULL) eqn:U1);
    try (destruct (c2 =? DATUM_CLASS__NULL) eqn:U2);
    cbn [bind assert];
    repeat (rewrite integer_step_update by exact Hk);
    rewrite ?N1, ?N2, ?U1, ?U2;
    cbn [bind assert accum_datum]; try reflexivity.
  all: rewrite (integer_update_comm k (accum_datum a) d1 d2 Hk); reflexivity.
Qed.

(** Order independence: for the integer kinds, the outcome of feeding a
    sequence of contributions (of any class, delivered by any operation)
    depends only on the contributions, not on their order. *)
Theorem integer_feed_order_independent
        (k : aggcalc_kind) (cs cs' : list contribution) (a : accum) :
  integer_kind k = true ->
  Permutation cs cs' ->
  feed k cs a = feed k cs' a.
Proof.
  intros Hk P. revert a.
  induction P as [|c l l' P IH|c1 c2 l|l1 l2 l3 P1 IH1 P2 IH2]; intros a.
  - reflexivity.
  - simpl. destruct (aggcalc (c_op c) k a (c_dclass c) (c_datum c));
      simpl; [apply IH | reflexivity].
  - simpl. apply integer_calls_commute, Hk.
  - rewrite IH1. apply IH2.
Qed.

(** *** Integer minimum and maximum *)

Lemma fold_min_spec l : forall x,
  fold_left Z.min l x <= x
  /\ Forall (fun v => fold_left Z.min l x <= v) l
  /\ (fold_left Z.min l x = x \/ In (fold_left Z.min l x) l).
Proof.
  induction l as [|v l IH]; intros x; simpl.
  - repeat split; [lia | constructor | left; reflexivity].
  - destruct (IH (Z.min x v)) as (H1 & H2 & H3). repeat split.
    + lia.
    + constructor; [lia | exact H2].
    + destruct H3 as [H3 | H3]; [|right; right; exact H3].
      destruct (Z.min_spec x v) as [[_ E] | [_ E]].
      * left. rewrite H3. exact E.
      * right. left. rewrite H3. symmetry. exact E.
Qed.

Lemma fold_max_spec l : forall x,
  x <= fold_left Z.max l x
  /\ Forall (fun v => v <= fold_left Z.max l x) l
  /\ (fold_left Z.max l x = x \/ In (fold_left Z.max l x) l).
Proof.
  induction l as [|v l IH]; intros x; simpl.
  - repeat split; [lia | constructor | left; reflexivity].
  - destruct (IH (Z.max x v)) as (H1 & H2 & H3). repeat split.
    + lia.
    + constructor; [lia | exact H2].
    + destruct H3 as [H3 | H3]; [|right; right; exact H3].
      destruct (Z.max_spec x v) as [[_ E] | [_ E]].
      * right. left. rewrite H3. symmetry. exact E.
      * left. rewrite H3. exact E.
Qed.

Lemma feed_integer_fold k cs : forall a,
  integer_kind k = true -> minmax_kind k = true ->
  all_NORMAL cs ->
  exists a',
    feed k cs a = Returned a'
    /\ stored_integer k (accum_datum a')
       = fold_left (integer_combine k)
                   (map (fun c => contributed_integer k (c_datum c)) cs)
                   (stored_integer k (accum_datum a)).
Proof.
  induction cs as [|c cs IH]; intros a Hk Hm Hcs.
  - exists a. split; reflexivity.
  - inversion Hcs as [|c' cs' Hc Hcs']; subst. simpl.
    rewrite (integer_step_update _ k a _ _ Hk), Hc, Z.eqb_refl. simpl.
    destruct (IH {| accum_dclass := DATUM_CLASS__NORMAL;
                    accum_datum := integer_update k (accum_datum a)
                                                  (c_datum c) |}
                 Hk Hm Hcs') as (a' & Hf & Hs).
    exists a'. split; [exact Hf|]. rewrite Hs. cbn [accum_datum].
    unfold integer_update. rewrite stored_store_integer.
    rewrite integer_combine_wrap
      by (try assumption; apply stored_integer_range
                          || apply contributed_integer_range).
    reflexivity.
Qed.

Lemma contributed_integer_bounds k d :
  integer_kind k = true ->
  (if narrow_kind k then INT_MIN else LONG_MIN) <= contributed_integer k d
  /\ contributed_integer k d <= (if narrow_kind k then INT_MAX else LONG_MAX).
Proof.
  intros Hk. unfold contributed_integer, contributed_int, contributed_long.
  destruct (narrow_kind k).
  - apply to_cl_int_range.
  - apply to_cl_long_range.
Qed.

(** Fed a non-empty sequence of NORMAL contributions, by any mix of the
    three operations, an integer min accumulator fresh from init holds the
    least of the contributed integers: it is one of them and it is below
    or equal to each.  Symmetrically an integer max accumulator holds the
    greatest. *)
Theorem integer_accumulator_holds_extremum
        (k : aggcalc_kind) (dir : direction)
        (a0 : accum) (cs : list contribution) :
  integer_minmax k = Some dir ->
  all_NORMAL cs ->
  cs <> [] ->
  exists a',
    feed k cs (aggcalc_init k a0) = Returned a'
    /\ In (stored_integer k (accum_datum a'))
          (map (fun c => contributed_integer k (c_datum c)) cs)
    /\ Forall (fun v => match dir with
                        | towards_min => stored_integer k (accum_datum a') <= v
                        | towards_max => v <= stored_integer k (accum_datum a')
                        end)
              (map (fun c => contributed_integer k (c_datum c)) cs).
Proof.
  intros Hd Hcs Hne.
  assert (Hk : integer_kind k = true) by (destruct k; try discriminate Hd; reflexivity).
  assert (Hm : minmax_kind k = true) by (destruct k; try discriminate Hd; reflexivity).
  destruct (feed_integer_fold k cs (aggcalc_init k a0) Hk Hm Hcs)
    as (a' & Hf & Hs).
  exists a'. split; [exact Hf|]. rewrite Hs. clear Hf Hs.
  destruct cs as [|c cs]; [contradiction|]. clear Hne Hcs.
  remember (map (fun c => contributed_integer k (c_datum c)) (c :: cs)) as l.
  assert (Hhead : In (contributed_integer k (c_datum c)) l)
    by (subst l; left; reflexivity).
  pose proof (contributed_integer_bounds k (c_datum c) Hk) as [Hlo Hhi].
  clear Heql.
  destruct k; try discriminate Hd; injection Hd as <-;
    cbn [narrow_kind] in Hlo, Hhi;
    try change (integer_combine min_int) with Z.min;
    try change (integer_combine max_int) with Z.max;
    try change (integer_combine min_long) with Z.min;
    try change (integer_combine max_long) with Z.max;
    [ change (stored_integer min_int (accum_datum (aggcalc_init min_int a0)))
        with INT_MAX;
      destruct (fold_min_spec l INT_MAX) as (H1 & H2 & H3)
    | change (stored_integer max_int (accum_datum (aggcalc_init max_int a0)))
        with INT_MIN;
      destruct (fold_max_spec l INT_MIN) as (H1 & H2 & H3)
    | change (stored_integer min_long (accum_datum (aggcalc_init min_long a0)))
        with LONG_MAX;
      destruct (fold_min_spec l LONG_MAX) as (H1 & H2 & H3)
    | change (stored_integer max_long (accum_datum (aggcalc_init max_long a0)))
        with LONG_MIN;
      destruct (fold_max_spec l LONG_MIN) as (H1 & H2 & H3) ];
    (split; [|exact H2]);
    (destruct H3 as [H3 | H3]; [|exact H3]);
    rewrite Forall_forall in H2; specialize (H2 _ Hhead);
    rewrite H3 in H2 |- *;
    match type of Hhead with
    | In ?v l =>
        match goal with
        | |- In ?x l => replace x with v by lia; exact Hhead
        end
    end.
Qed.

(** *** Repeated contributions *)

Lemma aggcalc_as_normal op k a c d :
  aggcalc op k a c d = aggcalc op_normal k a c d.
Proof.
  destruct (merge_agrees_with_normal k a c d) as [Hm Hu].
  destruct op; [reflexivity | exact Hm | exact Hu].
Qed.

Lemma Min_absorb {A} (ltb : A -> A -> bool) x y :
  Min ltb (Min ltb x y) y = Min ltb x y.
Proof.
  unfold Min. destruct (ltb x y) eqn:E; [rewrite E; reflexivity|].
  destruct (ltb y y); reflexivity.
Qed.

Lemma Max_absorb {A} (gtb : A -> A -> bool) x y :
  Max gtb (Max gtb x y) y = Max gtb x y.
Proof.
  unfold Max. destruct (gtb x y) eqn:E; [rewrite E; reflexivity|].
  destruct (gtb y y); reflexivity.
Qed.

Lemma Min_load32 (ltb : Z -> Z -> bool) x y :
  to_cl_uint (Min ltb (load32 x) (load32 y)) = Min ltb (load32 x) (load32 y).
Proof. unfold Min, load32. destruct (ltb _ _); apply to_cl_uint_idem. Qed.

Lemma Max_load32 (gtb : Z -> Z -> bool) x y :
  to_cl_uint (Max gtb (load32 x) (load32 y)) = Max gtb (load32 x) (load32 y).
Proof. unfold Max, load32. destruct (gtb _ _); apply to_cl_uint_idem. Qed.

Lemma Min_load64 (ltb : Z -> Z -> bool) x y :
  to_cl_ulong (Min ltb (load64 x) (load64 y)) = Min ltb (load64 x) (load64 y).
Proof. unfold Min, load64. destruct (ltb _ _); apply to_cl_ulong_idem. Qed.

Lemma Max_load64 (gtb : Z -> Z -> bool) x y :
  to_cl_ulong (Max gtb (load64 x) (load64 y)) = Max gtb (load64 x) (load64 y).
Proof. unfold Max, load64. destruct (gtb _ _); apply to_cl_ulong_idem. Qed.

(** Contributing the same NORMAL value to a min or max accumulator a
    second time, by whichever operation, changes nothing: the second call
    returns the accumulator the first one left. *)
Theorem minmax_contribution_idempotent
        (op1 op2 : aggcalc_op) (k : aggcalc_kind) (a : accum)
        (newval_datum : Datum) :
  minmax_kind k = true ->
  exists a1,
    aggcalc op1 k a DATUM_CLASS__NORMAL newval_datum = Returned a1
    /\ aggcalc op2 k a1 DATUM_CLASS__NORMAL newval_datum = Returned a1.
Proof.
  intros Hm.
  destruct (integer_kind k) eqn:Hk.
  - eexists. split.
    + rewrite (integer_step_update op1 k a _ _ Hk), Z.eqb_refl. reflexivity.
    + rewrite (integer_step_update op2 k _ _ _ Hk), Z.eqb_refl.
      cbn [accum_datum]. rewrite (integer_update_idem k _ _ Hk Hm).
      reflexivity.
  - rewrite (aggcalc_as_normal op1).
    destruct k; try discriminate Hk; try discriminate Hm;
      (eexists; split;
       [ autounfold with aggcalc; rewrite Z.eqb_refl; reflexivity
       | rewrite (aggcalc_as_normal op2);
         autounfold with aggcalc; rewrite Z.eqb_refl;
         unfold set_dclass, set_datum; cbn [accum_datum accum_dclass];
         do 2 f_equal; unfold load_cl_float, load_cl_double;
         rewrite ?int_as_float_mask, ?store32_store32, ?load32_store32,
           ?load64_store64;
         unfold __longlong_as_double, store64;
         rewrite ?to_cl_ulong_idem;
         try fold (load64 newval_datum);
         try fold (load64 (accum_datum a));
         rewrite ?Min_load32, ?Max_load32, ?Min_load64, ?Max_load64 ]).
    all: rewrite ?Min_load32, ?Max_load32, ?Min_load64, ?Max_load64,
          ?Min_absorb, ?Max_absorb; reflexivity.
Qed.

(** *** The shape of the cell *)

Lemma aggcalc_stores op k a d :
  exists v,
    aggcalc op k a DATUM_CLASS__NORMAL d
    = Returned {| accum_dclass := DATUM_CLASS__NORMAL;
                  accum_datum := if narrow_kind k
                                 then store32 (accum_datum a) v
                                 else store64 (accum_datum a) v |}.
Proof.
  rewrite aggcalc_as_normal.
  destruct k; autounfold with aggcalc; rewrite Z.eqb_refl;
    eexists; reflexivity.
Qed.

Lemma store32_is_Datum d v : is_Datum d -> is_Datum (store32 d v).
Proof.
  unfold is_Datum, store32. unfold_cint. intros H.
  pose proof (Z.mod_pos_bound v 4294967296 ltac:(lia)).
  pose proof (Z.div_mod d 4294967296 ltac:(lia)).
  pose proof (Z.mod_pos_bound d 4294967296 ltac:(lia)).
  assert (0 <= d / 4294967296 < 4294967296)
    by (split; [apply Z.div_pos; lia | apply Z.div_lt_upper_bound; lia]).
  lia.
Qed.

Lemma store64_is_Datum d v : is_Datum (store64 d v).
Proof. apply to_cl_ulong_range. Qed.

Lemma aggcalc_cell op k a c d :
  accepted {| c_op := op; c_dclass := c; c_datum := d |} ->
  is_Datum (accum_datum a) ->
  exists a',
    aggcalc op k a c d = Returned a'
    /\ is_Datum (accum_datum a')
    /\ (narrow_kind k = true ->
        accum_datum a' / 2 ^ 32 = accum_datum a / 2 ^ 32).
Proof.
  unfold accepted. cbn [c_dclass]. intros Hc Ha.
  assert (N : forall d0, exists a',
               aggcalc op k a DATUM_CLASS__NORMAL d0 = Returned a'
               /\ is_Datum (accum_datum a')
               /\ (narrow_kind k = true ->
                   accum_datum a' / 2 ^ 32 = accum_datum a / 2 ^ 32)).
  { intros d0. destruct (aggcalc_stores op k a d0) as [v ->].
    eexists. split; [reflexivity|]. cbn [accum_datum].
    destruct (narrow_kind k).
    - split; [apply store32_is_Datum, Ha | intros _; apply store32_upper].
    - split; [apply store64_is_Datum | discriminate]. }
  destruct Hc as [-> | ->]; [apply N|].
  destruct (aggcalc_frame op k a DATUM_CLASS__NULL d) as [d' E].
  destruct (DATUM_CLASS__NULL =? DATUM_CLASS__NORMAL) eqn:Q.
  - apply Z.eqb_eq in Q. rewrite Q. apply N.
  - rewrite E, Z.eqb_refl. exists a. split; [reflexivity|].
    split; [exact Ha | reflexivity].
Qed.

(** Init writes a 64-bit word, and any sequence of accepted contributions
    keeps the cell a 64-bit word; the kinds that work on 32 bits never
    touch the upper half of the cell. *)
Theorem feed_keeps_cell_shape
        (k : aggcalc_kind) (a0 a : accum) (cs : list contribution) :
  Forall accepted cs ->
  is_Datum (accum_datum a) ->
  is_Datum (accum_datum (aggcalc_init k a0))
  /\ exists a',
      feed k cs a = Returned a'
      /\ is_Datum (accum_datum a')
      /\ (narrow_kind k = true ->
          accum_datum a' / 2 ^ 32 = accum_datum a / 2 ^ 32).
Proof.
  intros Hcs Ha. split.
  { destruct k; unfold is_Datum; cbv; split; congruence. }
  revert a Ha. induction Hcs as [|c cs Hc Hcs IH]; intros a Ha.
  - exists a. split; [reflexivity|]. split; [exact Ha | reflexivity].
  - cbn [feed]. destruct c as [op c d].
    destruct (aggcalc_cell op k a c d Hc Ha) as (a1 & E & H1 & U1).
    cbn [c_op c_dclass c_datum]. rewrite E. cbn [bind].
    destruct (IH a1 H1) as (a' & E' & H' & U').
    exists a'. split; [exact E'|]. split; [exact H'|].
    intros Hn. rewrite (U' Hn). apply U1, Hn.
Qed.

(** *** Shuffle *)

Lemma shfl_sync_map {A B : Type} (f : A -> B) warp own srcLane :
  __shfl_sync (map f warp) (f own) srcLane = f (__shfl_sync warp own srcLane).
Proof. unfold __shfl_sync. apply map_nth. Qed.

Lemma aggcalc_shuffle_unfold k activemask warp a lane_id :
  aggcalc_shuffle k activemask warp a lane_id
  = bind (assert (activemask =? 0xffffffff) a)
         (fun a =>
            aggcalc op_normal k a
                    (accum_dclass (__shfl_sync warp a lane_id))
                    (accum_datum (__shfl_sync warp a lane_id))).
Proof.
  destruct k; unfold aggcalc_shuffle, aggcalc_shuffle_min_int,
    aggcalc_shuffle_max_int, aggcalc_shuffle_add_int,
    aggcalc_shuffle_min_long, aggcalc_shuffle_max_long,
    aggcalc_shuffle_add_long, aggcalc_shuffle_min_float,
    aggcalc_shuffle_max_float, aggcalc_shuffle_add_float,
    aggcalc_shuffle_min_double, aggcalc_shuffle_max_double,
    aggcalc_shuffle_add_double, AGGCALC_SHUFFLE_TEMPLATE;
    destruct (activemask =? 0xffffffff); simpl; try reflexivity;
    rewrite !shfl_sync_map; reflexivity.
Qed.

(** A shuffle issued while some lane of the warp is inactive stops at its
    first assertion.  With all 32 lanes active, and every lane holding an
    accumulator of class NORMAL or NULL (as init and the combine functions
    leave them), the shuffle returns; it is the normal update with the
    accumulator of lane [lane_id] modulo 32 as contribution, so a NULL
    source lane leaves the own accumulator as it is and a NORMAL one makes
    it NORMAL. *)
Theorem shuffle_combines_source_lane
        (k : aggcalc_kind) (activemask : Z) (warp : list accum)
        (a : accum) (lane_id : Z) :
  (activemask <> 0xffffffff ->
   aggcalc_shuffle k activemask warp a lane_id = AssertionFailed)
  /\ (activemask = 0xffffffff ->
      List.length warp = 32%nat ->
      Forall (fun b => accum_dclass b = DATUM_CLASS__NORMAL
                       \/ accum_dclass b = DATUM_CLASS__NULL) warp ->
      let src := nth (Z.to_nat (lane_id mod 32)) warp a in
      In src warp
      /\ aggcalc_shuffle k activemask warp a lane_id
         = aggcalc op_normal k a (accum_dclass src) (accum_datum src)
      /\ exists a',
          aggcalc_shuffle k activemask warp a lane_id = Returned a'
          /\ (accum_dclass src = DATUM_CLASS__NULL -> a' = a)
          /\ (accum_dclass src = DATUM_CLASS__NORMAL ->
              accum_dclass a' = DATUM_CLASS__NORMAL)).
Proof.
  rewrite aggcalc_shuffle_unfold. split.
  - intros N. apply Z.eqb_neq in N. rewrite N. reflexivity.
  - intros -> Hlen Hall src. rewrite Z.eqb_refl. cbn [assert bind].
    assert (Hin : In src warp).
    { apply nth_In. rewrite Hlen.
      pose proof (Z.mod_pos_bound lane_id 32 ltac:(lia)). lia. }
    split; [exact Hin|]. split; [reflexivity|].
    change (__shfl_sync warp a lane_id) with src.
    rewrite Forall_forall in Hall. specialize (Hall src Hin).
    destruct Hall as [E | E]; rewrite E.
    + destruct (aggcalc_NORMAL op_normal k a (accum_datum src)) as [d' ->].
      eexists. split; [reflexivity|]. split; [|reflexivity].
      intros Q. exfalso. apply DATUM_CLASS__distinct. exact Q.
    + rewrite aggcalc_NULL. exists a. split; [reflexivity|].
      split; [reflexivity|].
      intros Q. exfalso. apply DATUM_CLASS__distinct. symmetry. exact Q.
Qed.

End AggCalc.

(** ** The control block and the hash slot layout *)

Lemma memset_whole s c :
  Layout.memset s c (Layout.sizeof_bytes s) = repeat c (List.length s).
Proof.
  unfold Layout.memset, Layout.sizeof_bytes.
  rewrite Nat.min_id, skipn_all, app_nil_r. reflexivity.
Qed.

(** C7: [gpupreagg_reset_kernel_task] zeroes the error buffer, sets
    [read_slot_pos] to 0, [setup_slot_done] and [final_buffer_modified] to
    false, [suspend_count] to 0 and [resume_context] to the given flag,
    and leaves every other member of the control block as it was. *)
Theorem reset_kernel_task_effect
        (k : Layout.kern_gpupreagg) (resume_context : bool) :
  let k' := Layout.gpupreagg_reset_kernel_task k resume_context in
  Layout.kerror k' = repeat Byte.x00 (List.length (Layout.kerror k))
  /\ Layout.read_slot_pos k' = 0
  /\ Layout.setup_slot_done k' = false
  /\ Layout.final_buffer_modified k' = false
  /\ Layout.suspend_count k' = 0
  /\ Layout.resume_context k' = resume_context
  /\ Layout.num_group_keys k' = Layout.num_group_keys k
  /\ Layout.grid_sz k' = Layout.grid_sz k
  /\ Layout.block_sz k' = Layout.block_sz k
  /\ Layout.suspend_size k' = Layout.suspend_size k
  /\ Layout.nitems_real k' = Layout.nitems_real k
  /\ Layout.nitems_filtered k' = Layout.nitems_filtered k
  /\ Layout.num_groups k' = Layout.num_groups k
  /\ Layout.extra_usage k' = Layout.extra_usage k
  /\ Layout.tv_stat_debug1 k' = Layout.tv_stat_debug1 k
  /\ Layout.tv_stat_debug2 k' = Layout.tv_stat_debug2 k
  /\ Layout.tv_stat_debug3 k' = Layout.tv_stat_debug3 k
  /\ Layout.tv_stat_debug4 k' = Layout.tv_stat_debug4 k
  /\ Layout.kparams k' = Layout.kparams k.
Proof.
  cbv zeta. unfold Layout.gpupreagg_reset_kernel_task.
  cbn [Layout.kerror Layout.read_slot_pos Layout.setup_slot_done
       Layout.final_buffer_modified Layout.suspend_count
       Layout.resume_context Layout.num_group_keys Layout.grid_sz
       Layout.block_sz Layout.suspend_size Layout.nitems_real
       Layout.nitems_filtered Layout.num_groups Layout.extra_usage
       Layout.tv_stat_debug1 Layout.tv_stat_debug2 Layout.tv_stat_debug3
       Layout.tv_stat_debug4 Layout.kparams].
  rewrite memset_whole. repeat split.
Qed.

Lemma GETITEM_offset f_hash_p f_hash i :
  is_item_index i ->
  Layout.GLOBAL_HASHSLOT_GETITEM f_hash_p f_hash i
  = f_hash_p + Layout.hs_length f_hash - 12 * (i + 1).
Proof.
  unfold is_item_index, UINT_MAX. intros Hi.
  unfold Layout.GLOBAL_HASHSLOT_GETITEM, Layout.ptr_add,
    Layout.sizeof_preagg_hash_item, Layout.sizeof_cl_uint.
  unfold to_cl_uint, to_unsigned. change (2 ^ 32) with 4294967296.
  rewrite Z.mod_small by lia. lia.
Qed.

(** C8: for an item index [i], [GLOBAL_HASHSLOT_GETITEM] addresses the
    [(i+1)]-th region of [sizeof(preagg_hash_item)] = 12 bytes counted
    backwards from the end of the buffer, at offset [length]; index 0 ends
    at the end of the buffer, the item of the next index lies right below,
    towards the front; and the regions of two distinct indexes do not
    overlap. *)
Theorem hash_items_grow_from_tail
        (f_hash_p : Z) (f_hash : Layout.kern_global_hashslot) (i : Z) :
  is_item_index i ->
  let item := Layout.GLOBAL_HASHSLOT_GETITEM f_hash_p f_hash in
  let size := Layout.sizeof_preagg_hash_item in
  let tail := f_hash_p + Layout.hs_length f_hash in
  item i = tail - size * (i + 1)
  /\ item i + size = tail - size * i
  /\ item 0 + size = tail
  /\ (is_item_index (i + 1) -> item (i + 1) + size = item i)
  /\ (forall j, is_item_index j -> i <> j ->
                disjoint_regions size (item i) (item j)).
Proof.
  intros Hi item size tail. subst item size tail.
  rewrite (GETITEM_offset _ _ i Hi).
  rewrite (GETITEM_offset _ _ 0) by (unfold is_item_index, UINT_MAX; lia).
  change Layout.sizeof_preagg_hash_item with 12.
  repeat split; try lia.
  - intros Hi'. rewrite (GETITEM_offset _ _ (i + 1) Hi'). lia.
  - intros j Hj Hij. rewrite (GETITEM_offset _ _ j Hj).
    unfold disjoint_regions. lia.
Qed.

(** C9: the suspend context accessor yields NULL when [suspend_size] is
    zero; when [suspend_size] is positive it yields the address of entry
    [group_id] of the array of 8-byte [gpupreaggSuspendContext] that
    starts right behind the parameter buffer, at offset
    [offsetof(kern_gpupreagg, kparams) + kparams.length] of the control
    block, which is [KERN_GPUPREAGG_LENGTH]. *)
Theorem suspend_context_address
        (offsetof_kparams kgpreagg : Z) (k : Layout.kern_gpupreagg)
        (group_id : Z) :
  (Layout.suspend_size k = 0 ->
   Layout.KERN_GPUPREAGG_SUSPEND_CONTEXT offsetof_kparams kgpreagg k group_id
   = Layout.NULL)
  /\ (0 < Layout.suspend_size k ->
      Layout.KERN_GPUPREAGG_SUSPEND_CONTEXT offsetof_kparams kgpreagg k
                                            group_id
      = Some (kgpreagg
              + (offsetof_kparams + Layout.length (Layout.kparams k))
              + 8 * group_id)
      /\ offsetof_kparams + Layout.length (Layout.kparams k)
         = Layout.KERN_GPUPREAGG_LENGTH offsetof_kparams k
      /\ Layout.sizeof_gpupreaggSuspendContext = 8).
Proof.
  unfold Layout.KERN_GPUPREAGG_SUSPEND_CONTEXT, Layout.KERN_GPUPREAGG_LENGTH,
    Layout.KERN_GPUPREAGG_PARAMBUF, Layout.KERN_GPUPREAGG_PARAMBUF_LENGTH,
    Layout.ptr_add.
  change Layout.sizeof_gpupreaggSuspendContext with 8.
  split.
  - intros ->. reflexivity.
  - intros H. rewrite Z.gtb_ltb. apply Z.ltb_lt in H. rewrite H.
    repeat split. f_equal. lia.
Qed.

(** The suspend contexts of a control block with a suspend buffer: the
    entries of two distinct groups occupy disjoint 8-byte regions, and the
    entries of the groups 0, 1, 2, ... lie behind the control block and its
    parameter buffer, at or above [KERN_GPUPREAGG_LENGTH]. *)
Theorem suspend_contexts_do_not_overlap
        (offsetof_kparams kgpreagg : Z) (k : Layout.kern_gpupreagg)
        (g h : Z) :
  0 < Layout.suspend_size k ->
  g <> h ->
  exists p q,
    Layout.KERN_GPUPREAGG_SUSPEND_CONTEXT offsetof_kparams kgpreagg k g
    = Some p
    /\ Layout.KERN_GPUPREAGG_SUSPEND_CONTEXT offsetof_kparams kgpreagg k h
       = Some q
    /\ disjoint_regions Layout.sizeof_gpupreaggSuspendContext p q
    /\ (0 <= g ->
        kgpreagg + Layout.KERN_GPUPREAGG_LENGTH offsetof_kparams k <= p).
Proof.
  intros Hs Hgh.
  unfold Layout.KERN_GPUPREAGG_SUSPEND_CONTEXT, Layout.KERN_GPUPREAGG_LENGTH,
    Layout.KERN_GPUPREAGG_PARAMBUF, Layout.KERN_GPUPREAGG_PARAMBUF_LENGTH,
    Layout.ptr_add, disjoint_regions.
  change Layout.sizeof_gpupreaggSuspendContext with 8.
  rewrite Z.gtb_ltb. apply Z.ltb_lt in Hs. rewrite Hs.
  eexists. eexists. split; [reflexivity|]. split; [reflexivity|].
  split; lia.
Qed.

(** ** Instances at concrete inputs

    The class tags are instantiated with 0 for NORMAL and 1 for NULL. *)

Lemma null_contribution_leaves_accumulator_witness :
  0 <> 1
  /\ exists a',
      aggcalc 0 1 op_merge add_int sample_accum 1 7 = Returned a'
      /\ accum_dclass a' = accum_dclass sample_accum
      /\ accum_datum a' = accum_datum sample_accum.
Proof.
  split; [lia|].
  apply (null_contribution_leaves_accumulator 0 1); lia.
Defined.

Lemma combine_accepts_only_NORMAL_and_NULL_witness :
  (exists a', aggcalc 0 1 op_normal min_int sample_accum 0 7 = Returned a')
  /\ aggcalc 0 1 op_merge max_double sample_accum 2 7 = AssertionFailed.
Proof.
  split.
  - apply (combine_accepts_only_NORMAL_and_NULL 0 1 op_normal min_int
             sample_accum 0 7). left. reflexivity.
  - apply (combine_accepts_only_NORMAL_and_NULL 0 1 op_merge max_double
             sample_accum 2 7); lia.
Defined.

Lemma accumulator_class_tracks_contributions_witness :
  Forall (accepted 0 1) sample_contributions
  /\ exists a',
      feed 0 1 max_int sample_contributions (aggcalc_init 1 max_int sample_accum)
      = Returned a'
      /\ (accum_dclass a' = 1
          <-> Forall (fun c => c_dclass c = 1) sample_contributions)
      /\ (accum_dclass a' = 0
          <-> Exists (fun c => c_dclass c = 0) sample_contributions)
      /\ (accum_dclass a' = 0 ->
          forall cs', Forall (accepted 0 1) cs' ->
          exists a'', feed 0 1 max_int cs' a' = Returned a''
                      /\ accum_dclass a'' = 0).
Proof.
  assert (H : Forall (accepted 0 1) sample_contributions).
  { repeat (apply Forall_cons || apply Forall_nil); unfold accepted; simpl; lia. }
  split; [exact H|].
  apply (accumulator_class_tracks_contributions 0 1); [lia | exact H].
Defined.

Lemma integer_sum_wraps_around_witness :
  all_NORMAL 0 overflowing_contributions
  /\ (exists a',
         feed 0 1 add_int overflowing_contributions
              (aggcalc_init 1 add_int sample_accum) = Returned a'
         /\ load_cl_uint (accum_datum a')
            = sum_Z (map (fun c => contributed_int (c_datum c))
                         overflowing_contributions) mod 2 ^ 32
         /\ load_cl_int (accum_datum a')
            = to_cl_int (sum_Z (map (fun c => contributed_int (c_datum c))
                                    overflowing_contributions)))
  /\ (exists a',
         feed 0 1 add_long overflowing_contributions
              (aggcalc_init 1 add_long sample_accum) = Returned a'
         /\ load_cl_ulong (accum_datum a')
            = sum_Z (map (fun c => contributed_long (c_datum c))
                         overflowing_contributions) mod 2 ^ 64
         /\ load_cl_long (accum_datum a')
            = to_cl_long (sum_Z (map (fun c => contributed_long (c_datum c))
                                     overflowing_contributions))).
Proof.
  assert (H : all_NORMAL 0 overflowing_contributions).
  { repeat (apply Forall_cons || apply Forall_nil); reflexivity. }
  split; [exact H|].
  apply (integer_sum_wraps_around 0 1 sample_accum overflowing_contributions H).
Defined.

(** The 64-bit sum of [LONG_MAX] and 1 is [LONG_MIN]: it wrapped. *)
Example long_sum_overflow :
  feed 0 1 add_long overflowing_contributions
       (aggcalc_init 1 add_long sample_accum)
  = Returned {| accum_dclass := 0; accum_datum := to_Datum LONG_MIN |}.
Proof. reflexivity. Qed.

Lemma fresh_accumulator_takes_contribution_witness :
  restored_by_init min_float 0xbf800000 = true
  /\ exists a',
      aggcalc 0 1 op_merge min_float (aggcalc_init 1 min_float sample_accum)
              0 0xbf800000 = Returned a'
      /\ accum_dclass a' = 0
      /\ kind_bits min_float (accum_datum a') = kind_bits min_float 0xbf800000
      /\ kind_value min_float (accum_datum a')
         = kind_value min_float 0xbf800000.
Proof.
  split; [reflexivity|].
  apply (fresh_accumulator_takes_contribution 0 1 op_merge min_float).
  reflexivity.
Defined.

(** The accumulator holds -1.0 and -2.0 is contributed: the minimum is
    -2.0, whose raw word 0xc0000000 is the greater of the two. *)
Lemma float_merge_keeps_extremum_witness :
  let a := {| accum_dclass := 0; accum_datum := 0xbf800000 |} in
  float_minmax min_float = Some towards_min
  /\ is_nan (kind_float min_float (accum_datum a)) = false
  /\ is_nan (kind_float min_float 0xc0000000) = false
  /\ exists a',
      aggcalc 0 1 op_merge min_float a 0 0xc0000000 = Returned a'
      /\ accum_dclass a' = 0
      /\ kind_bits min_float (accum_datum a')
         = (if SFltb (kind_float min_float (accum_datum a))
                     (kind_float min_float 0xc0000000)
            then kind_bits min_float (accum_datum a)
            else kind_bits min_float 0xc0000000)
      /\ (SFleb (kind_float min_float (accum_datum a'))
                (kind_float min_float (accum_datum a)) = true
          /\ SFleb (kind_float min_float (accum_datum a'))
                   (kind_float min_float 0xc0000000) = true).
Proof.
  intros a. repeat (split; [reflexivity|]).
  apply (float_merge_keeps_extremum 0 1 op_merge min_float towards_min a
           0xc0000000); reflexivity.
Defined.

Example float_merge_min_negative :
  aggcalc 0 1 op_merge min_float
          {| accum_dclass := 0; accum_datum := 0xbf800000 |} 0 0xc0000000
  = Returned {| accum_dclass := 0; accum_datum := 0xc0000000 |}.
Proof. reflexivity. Qed.

Lemma hash_items_grow_from_tail_witness :
  is_item_index 2
  /\ Layout.GLOBAL_HASHSLOT_GETITEM 1000 sample_hashslot 2
     = 1000 + 4096 - Layout.sizeof_preagg_hash_item * (2 + 1)
  /\ Layout.GLOBAL_HASHSLOT_GETITEM 1000 sample_hashslot 2
     + Layout.sizeof_preagg_hash_item
     = 1000 + 4096 - Layout.sizeof_preagg_hash_item * 2.
Proof.
  assert (H : is_item_index 2) by (unfold is_item_index, UINT_MAX; lia).
  split; [exact H|].
  pose proof (hash_items_grow_from_tail 1000 sample_hashslot 2 H) as T.
  cbv zeta in T. destruct T as (T1 & T2 & _). split; [exact T1 | exact T2].
Defined.

Lemma suspend_context_address_witness :
  0 < Layout.suspend_size sample_block
  /\ Layout.KERN_GPUPREAGG_SUSPEND_CONTEXT 176 4096 sample_block 3
     = Some (4096 + (176 + 24) + 8 * 3).
Proof.
  assert (H : 0 < Layout.suspend_size sample_block) by (simpl; lia).
  split; [exact H|].
  apply (proj2 (suspend_context_address 176 4096 sample_block 3) H).
Defined.

(** ** Where the accumulator fresh from init is not neutral *)

(** C1 fails for the floating point min kind at +infinity (0x7f800000):
    the accumulator fresh from init holds [FLT_MAX], which is less than
    +infinity, so the normal update keeps [FLT_MAX] and the contributed
    value is lost. *)
Lemma fresh_min_float_loses_infinity :
  aggcalc 0 1 op_normal min_float (aggcalc_init 1 min_float sample_accum)
          0 0x7f800000
  = Returned {| accum_dclass := 0; accum_datum := FLT_MAX |}
  /\ kind_value min_float 0x7f800000 = VFloat (S754_infinity false)
  /\ ~ (exists a',
           aggcalc 0 1 op_normal min_float
                   (aggcalc_init 1 min_float sample_accum) 0 0x7f800000
           = Returned a'
           /\ kind_value min_float (accum_datum a')
              = kind_value min_float 0x7f800000).
Proof.
  split; [reflexivity|]. split; [reflexivity|].
  intros (a' & E & V).
  change (aggcalc 0 1 op_normal min_float
                  (aggcalc_init 1 min_float sample_accum) 0 0x7f800000)
    with (Returned {| accum_dclass := 0; accum_datum := FLT_MAX |}) in E.
  injection E as <-. discriminate V.
Qed.

(** The same happens through the atomic merge, and symmetrically for max
    at -infinity; a sum fresh from init turns the negative zero into the
    positive zero. *)
Example fresh_merge_min_double_loses_infinity :
  aggcalc 0 1 op_merge min_double (aggcalc_init 1 min_double sample_accum)
          0 0x7ff0000000000000
  = Returned {| accum_dclass := 0; accum_datum := DBL_MAX |}.
Proof. reflexivity. Qed.

Example fresh_max_float_loses_infinity :
  aggcalc 0 1 op_merge max_float (aggcalc_init 1 max_float sample_accum)
          0 0xff800000
  = Returned {| accum_dclass := 0; accum_datum := 0xffffffffff7fffff |}.
Proof. reflexivity. Qed.

Example fresh_add_float_negative_zero :
  aggcalc 0 1 op_normal add_float (aggcalc_init 1 add_float sample_accum)
          0 0x80000000
  = Returned {| accum_dclass := 0; accum_datum := 0 |}.
Proof. reflexivity. Qed.

(** C4 fails for the floating point min kind: the value init writes is
    the largest finite number, not +infinity. *)
Lemma init_min_float_is_not_infinity :
  kind_value min_float (accum_datum (aggcalc_init 1 min_float sample_accum))
  = VFloat (SFmax_float 24 128)
  /\ kind_value min_float
                (accum_datum (aggcalc_init 1 min_float sample_accum))
     <> ideal_identity min_float.
Proof. split; [reflexivity | discriminate]. Qed.

Example init_max_double_is_not_infinity :
  kind_value max_double
             (accum_datum (aggcalc_init 1 max_double sample_accum))
  <> ideal_identity max_double.
Proof. discriminate. Qed.

(** ** Further checks on concrete inputs *)

Example FLT_MAX_decode : b32_decode FLT_MAX = SFmax_float 24 128.
Proof. reflexivity. Qed.

Example DBL_MAX_decode : b64_decode DBL_MAX = SFmax_float 53 1024.
Proof. reflexivity. Qed.

Example float_neg_FLT_MAX :
  b32_decode (float_neg FLT_MAX) = SFopp (SFmax_float 24 128).
Proof. reflexivity. Qed.

Example float_one_plus_one : float_add 0x3f800000 0x3f800000 = 0x40000000.
Proof. reflexivity. Qed.

Example init_max_int_word :
  aggcalc_init 1 max_int sample_accum
  = {| accum_dclass := 1; accum_datum := 0xffffffff80000000 |}.
Proof. reflexivity. Qed.

(** The 32-bit functions leave the upper half of the cell alone. *)
Example max_int_keeps_upper_half :
  aggcalc 0 1 op_normal max_int (aggcalc_init 1 max_int sample_accum) 0 5
  = Returned {| accum_dclass := 0; accum_datum := 0xffffffff00000005 |}.
Proof. reflexivity. Qed.

(** The 32-bit sum of [INT_MAX] and 1 is [INT_MIN]. *)
Example int_sum_overflow :
  match feed 0 1 add_int
             [ {| c_op := op_normal; c_dclass := 0; c_datum := 0x7fffffff |};
               {| c_op := op_update; c_dclass := 0; c_datum := 1 |} ]
             (aggcalc_init 1 add_int sample_accum) with
  | Returned a' => load_cl_int (accum_datum a') = INT_MIN
  | AssertionFailed => False
  end.
Proof. reflexivity. Qed.

(** A class tag other than NORMAL and NULL stops at the assertion. *)
Example varlena_class_fails :
  aggcalc 0 1 op_update add_long sample_accum 2 0 = AssertionFailed.
Proof. reflexivity. Qed.

(** The retry loop, entered with a stale [curval], goes round once more. *)
Example cas_retry_stale :
  cas_retry (fun o n => float_lt o n) 0x3f800000 0x40000000 0x40400000
  = 0x3f800000.
Proof. reflexivity. Qed.

(** With [UINT_MAX] the index computation wraps and the address is the
    end of the buffer itself. *)
Example GETITEM_UINT_MAX :
  Layout.GLOBAL_HASHSLOT_GETITEM 1000 sample_hashslot UINT_MAX = 1000 + 4096.
Proof. reflexivity. Qed.

(** ** Instances of the further properties *)

Lemma integer_feed_order_independent_witness :
  integer_kind max_int = true
  /\ Permutation sample_contributions shuffled_contributions
  /\ feed 0 1 max_int sample_contributions sample_accum
     = feed 0 1 max_int shuffled_contributions sample_accum.
Proof.
  assert (P : Permutation sample_contributions shuffled_contributions).
  { unfold sample_contributions, shuffled_contributions.
    eapply perm_trans; [apply perm_skip, perm_swap | apply perm_swap]. }
  split; [reflexivity|]. split; [exact P|].
  apply (integer_feed_order_independent 0 1 max_int _ _ sample_accum);
    [reflexivity | exact P].
Defined.

(** The contributed integers are 7, -3 and 12; the minimum kept is -3. *)
Lemma integer_accumulator_holds_extremum_witness :
  integer_minmax min_int = Some towards_min
  /\ all_NORMAL 0 three_contributions
  /\ three_contributions <> []
  /\ exists a',
      feed 0 1 min_int three_contributions (aggcalc_init 1 min_int sample_accum)
      = Returned a'
      /\ In (stored_integer min_int (accum_datum a'))
            (map (fun c => contributed_integer min_int (c_datum c))
                 three_contributions)
      /\ Forall (fun v => stored_integer min_int (accum_datum a') <= v)
                (map (fun c => contributed_integer min_int (c_datum c))
                     three_contributions).
Proof.
  assert (H : all_NORMAL 0 three_contributions).
  { repeat (apply Forall_cons || apply Forall_nil); reflexivity. }
  split; [reflexivity|]. split; [exact H|]. split; [discriminate|].
  apply (integer_accumulator_holds_extremum 0 1 min_int towards_min
           sample_accum three_contributions);
    [reflexivity | exact H | discriminate].
Defined.

Example integer_min_of_three :
  feed 0 1 min_int three_contributions (aggcalc_init 1 min_int sample_accum)
  = Returned {| accum_dclass := 0; accum_datum := 0xfffffffd |}.
Proof. reflexivity. Qed.

Lemma minmax_contribution_idempotent_witness :
  minmax_kind max_double = true
  /\ exists a1,
      aggcalc 0 1 op_normal max_double sample_accum 0 0x4000000000000000
      = Returned a1
      /\ aggcalc 0 1 op_merge max_double a1 0 0x4000000000000000
         = Returned a1.
Proof.
  split; [reflexivity|].
  apply (minmax_contribution_idempotent 0 1 op_normal op_merge max_double
           sample_accum 0x4000000000000000).
  reflexivity.
Defined.

Lemma feed_keeps_cell_shape_witness :
  Forall (accepted 0 1) sample_contributions
  /\ is_Datum (accum_datum (aggcalc_init 1 max_int sample_accum))
  /\ exists a',
      feed 0 1 max_int sample_contributions
           (aggcalc_init 1 max_int sample_accum) = Returned a'
      /\ is_Datum (accum_datum a')
      /\ (narrow_kind max_int = true ->
          accum_datum a' / 2 ^ 32
          = accum_datum (aggcalc_init 1 max_int sample_accum) / 2 ^ 32).
Proof.
  assert (H : Forall (accepted 0 1) sample_contributions).
  { repeat (apply Forall_cons || apply Forall_nil); unfold accepted; simpl; lia. }
  assert (D : is_Datum (accum_datum (aggcalc_init 1 max_int sample_accum))).
  { unfold is_Datum. vm_compute. split; congruence. }
  split; [exact H|]. split; [exact D|].
  apply (feed_keeps_cell_shape 0 1 max_int sample_accum
           (aggcalc_init 1 max_int sample_accum) sample_contributions H D).
Defined.

(** Lane 31 holds a NULL accumulator, the other lanes hold 9. *)
Lemma shuffle_combines_source_lane_witness :
  0 <> 1
  /\ List.length sample_warp = 32%nat
  /\ aggcalc_shuffle 0 1 add_int 0xffff sample_warp sample_accum 3
     = AssertionFailed
  /\ aggcalc_shuffle 0 1 add_int 0xffffffff sample_warp sample_accum 3
     = aggcalc 0 1 op_normal add_int sample_accum 0 9.
Proof.
  split; [lia|]. split; [reflexivity|].
  pose proof (shuffle_combines_source_lane 0 1 ltac:(lia) add_int 0xffff
                sample_warp sample_accum 3) as [F _].
  split; [apply F; lia|].
  pose proof (shuffle_combines_source_lane 0 1 ltac:(lia) add_int 0xffffffff
                sample_warp sample_accum 3) as [_ T].
  assert (W : Forall (fun b => accum_dclass b = 0 \/ accum_dclass b = 1)
                     sample_warp).
  { unfold sample_warp. apply Forall_app. split.
    - apply Forall_forall. intros b Hb. apply repeat_spec in Hb. subst b.
      left. reflexivity.
    - apply Forall_cons; [right; reflexivity | apply Forall_nil]. }
  destruct (T eq_refl eq_refl W) as (_ & E & _). exact E.
Defined.

Lemma suspend_contexts_do_not_overlap_witness :
  0 < Layout.suspend_size sample_block
  /\ 3 <> 4
  /\ exists p q,
      Layout.KERN_GPUPREAGG_SUSPEND_CONTEXT 176 4096 sample_block 3 = Some p
      /\ Layout.KERN_GPUPREAGG_SUSPEND_CONTEXT 176 4096 sample_block 4 = Some q
      /\ disjoint_regions Layout.sizeof_gpupreaggSuspendContext p q
      /\ (0 <= 3 ->
          4096 + Layout.KERN_GPUPREAGG_LENGTH 176 sample_block <= p).
Proof.
  assert (H : 0 < Layout.suspend_size sample_block) by (simpl; lia).
  split; [exact H|]. split; [lia|].
  apply (suspend_contexts_do_not_overlap 176 4096 sample_block 3 4 H); lia.
Defined.
